(** * hhnk_research_tools.logger: a shallow embedding and its properties

    The module under study is [src/hhnk_research_tools/logger.py]: a thin
    layer over Python's [logging] package.  It builds a [dictConfig]
    descriptor ([get_logconfig_dict]), applies it ([set_default_logconfig]),
    attaches file sinks ([add_file_handler]), attaches or re-formats a
    console sink ([_add_or_update_streamhandler_format]) and hands out
    loggers under shortened names ([get_logger]).

    Layout of the development:
    - [PyStr]      Python's [str.replace] on character lists;
    - [Py]         a state-and-exception monad for the imperative code,
                   and the values that the module passes around;
    - [PosixPath]  the part of [os.path] and [pathlib] that decides
                   whether two paths are equal;
    - [Logging]    the part of the [logging] package the module relies on;
    - [logger]     the five functions of [logger.py];
    - [Notions], [MoreNotions]  the vocabulary of the statements;
    - the facts, function by function: [PyStrFacts], [GetLoggerFacts],
      [ConsoleFacts], [GetLoggerClaims], [FileSinkFacts], [ConfigFacts],
      then [ConsoleMore], [GetLoggerMore], [FileSinkMore], [ConfigMore]
      and [SinkOrder]. *)

From stdpp Require Import gmap strings list fin_maps.
From Stdlib Require Import ZArith Ascii.

Open Scope Z_scope.

(* ===================================================================== *)
(** ** Python strings *)
(* ===================================================================== *)

Module PyStr.

(** [s.startswith(p)] on character lists. *)
Fixpoint startswith (p s : list ascii) : bool :=
  match p, s with
  | [], _ => true
  | _ :: _, [] => false
  | a :: p', b :: s' => Ascii.eqb a b && startswith p' s'
  end.

(** [p in s]: the pattern occurs somewhere in [s]. *)
Fixpoint occurs (p s : list ascii) : bool :=
  startswith p s ||
  match s with
  | [] => false
  | _ :: s' => occurs p s'
  end.

(** [str.replace(old, new)] scans left to right and replaces every
    non-overlapping occurrence.  [skip] counts the characters of a
    match that remain to be passed over. *)
Fixpoint replace_from (old new : list ascii) (skip : nat) (s : list ascii)
  : list ascii :=
  match s with
  | [] => []
  | c :: s' =>
      match skip with
      | S k => replace_from old new k s'
      | O =>
          if startswith old s
          then new ++ replace_from old new (Nat.pred (length old)) s'
          else c :: replace_from old new 0 s'
      end
  end.

(** With an empty [old], Python inserts [new] before every character and
    at the end. *)
Definition replace_empty (new s : list ascii) : list ascii :=
  new ++ flat_map (fun c => c :: new) s.

Definition replace_chars (old new s : list ascii) : list ascii :=
  match old with
  | [] => replace_empty new s
  | _ :: _ => replace_from old new 0 s
  end.

(** [s.replace(old, new)] on strings. *)
Definition replace (s old new : string) : string :=
  String.string_of_list_ascii
    (replace_chars (String.list_ascii_of_string old) (String.list_ascii_of_string new)
       (String.list_ascii_of_string s)).

(** [p in s] on strings. *)
Definition contains (s p : string) : bool :=
  occurs (String.list_ascii_of_string p) (String.list_ascii_of_string s).

(** The non-empty suffixes of a list. *)
Fixpoint suffixes (l : list ascii) : list (list ascii) :=
  match l with
  | [] => []
  | _ :: l' => l :: suffixes l'
  end.

Definition comparable (x y : list ascii) : bool :=
  startswith x y || startswith y x.

(** [apart pat new]: no occurrence of [pat] in a text can share a
    character with an inserted copy of [new]. *)
Definition apart (pat new : list ascii) : bool :=
  forallb (fun b => negb (comparable b new)) (suffixes pat) &&
  forallb (fun b => negb (comparable pat b)) (suffixes new).

End PyStr.

(* ===================================================================== *)
(** ** Imperative Python: state and exceptions *)
(* ===================================================================== *)

Module Py.

(** The exceptions that the modelled code can raise.  [ReferenceError]
    stands for the use of a handle that names no live object; Python
    code cannot hold such a handle. *)
Inductive exn : Type :=
| TypeError (msg : string)
| ValueError (msg : string)
| AttributeError (msg : string)
| ReferenceError (msg : string).

Inductive res (A : Type) : Type :=
| Ok (a : A)
| Raise (e : exn).
Arguments Ok {A} a.
Arguments Raise {A} e.

(** A computation over a mutable state [S]: it returns or raises, and in
    both cases leaves a state behind. *)
Definition M (S A : Type) : Type := S -> res A * S.

Definition ret {S A} (a : A) : M S A := fun s => (Ok a, s).

Definition bind {S A B} (c : M S A) (k : A -> M S B) : M S B :=
  fun s =>
    match c s with
    | (Ok a, s') => k a s'
    | (Raise e, s') => (Raise e, s')
    end.

Definition raise {S A} (e : exn) : M S A := fun s => (Raise e, s).
Definition gets {S A} (f : S -> A) : M S A := fun s => (Ok (f s), s).
Definition modify {S} (f : S -> S) : M S unit := fun s => (Ok tt, f s).
Definition lift {S A} (r : res A) : M S A := fun s => (r, s).

#[global] Instance M_ret {S} : MRet (M S) := @ret S.
#[global] Instance M_bind {S} : MBind (M S) := fun A B k c => bind c k.

(** [for x in xs: acc = body(acc, x)]: a loop over a list that the body
    does not change, with the local variables it updates as [acc]. *)
Fixpoint for_fold {S A B} (body : B -> A -> M S B) (acc : B) (xs : list A)
  : M S B :=
  match xs with
  | [] => ret acc
  | x :: xs' => bind (body acc x) (fun acc' => for_fold body acc' xs')
  end.

(** The working directory of the process, as [os.getcwd()] gives it. *)
Class Process : Type := { getcwd : string }.

(** Run a computation on a component of a larger state. *)
Definition zoom {S T A} (view : S -> option T) (update : S -> T -> S)
    (missing : exn) (c : M T A) : M S A :=
  fun s =>
    match view s with
    | Some t => let '(r, t') := c t in (r, update s t')
    | None => (Raise missing, s)
    end.

(** The values that travel through the module as arguments and as
    entries of the configuration dictionary.  Lists and tuples hold
    logger namespaces, which are strings. *)
Inductive value : Type :=
| VNone
| VBool (b : bool)
| VInt (n : Z)
| VStr (s : string)
| VList (items : list string)
| VTuple (items : list string).

#[global] Instance value_eq_dec : EqDecision value.
Proof. solve_decision. Defined.

(** Truth value of an object in a condition. *)
Definition truthy (v : value) : bool :=
  match v with
  | VNone => false
  | VBool b => b
  | VInt n => negb (n =? 0)
  | VStr s => negb (String.eqb s "")
  | VList l | VTuple l => negb (Nat.eqb (length l) 0)
  end.

(** [isinstance(v, list)] *)
Definition isinstance_list (v : value) : bool :=
  match v with VList _ => true | _ => false end.

(** The items that [for x in v] goes through when [v] is a list. *)
Definition list_items (v : value) : list string :=
  match v with VList items => items | _ => [] end.

End Py.

(* ===================================================================== *)
(** ** Paths: [os.path] and [pathlib] on a POSIX system *)
(* ===================================================================== *)

Module PosixPath.

(** [s.split("/")] *)
Fixpoint split_slash (s : string) : list string :=
  match s with
  | EmptyString => [EmptyString]
  | String c s' =>
      if Ascii.eqb c "/" then EmptyString :: split_slash s'
      else match split_slash s' with
           | h :: t => String c h :: t
           | [] => [String c EmptyString]
           end
  end.

(** ["/".join(parts)] *)
Fixpoint join_slash (parts : list string) : string :=
  match parts with
  | [] => ""
  | [p] => p
  | p :: ps => p +:+ "/" +:+ join_slash ps
  end.

(** Number of leading slashes. *)
Fixpoint leading_slashes (s : string) : nat :=
  match s with
  | String c s' => if Ascii.eqb c "/" then S (leading_slashes s') else O
  | EmptyString => O
  end.

Definition isabs (s : string) : bool := negb (Nat.eqb (leading_slashes s) 0).

Fixpoint endswith_slash (s : string) : bool :=
  match s with
  | EmptyString => false
  | String c EmptyString => Ascii.eqb c "/"
  | String _ s' => endswith_slash s'
  end.

(** [posixpath.join(a, b)] *)
Definition join (a b : string) : string :=
  if isabs b then b
  else if String.eqb a "" || endswith_slash a then a +:+ b
  else a +:+ "/" +:+ b.

(** One step of the component loop of [posixpath.normpath]; [acc] holds
    the components kept so far, last one first. *)
Definition normpath_step (initial_slashes : nat) (acc : list string)
    (comp : string) : list string :=
  if String.eqb comp "" || String.eqb comp "." then acc
  else if negb (String.eqb comp "..")
          || (Nat.eqb initial_slashes 0 && Nat.eqb (length acc) 0)
          || match acc with
             | last :: _ => String.eqb last ".."
             | [] => false
             end
       then comp :: acc
       else tail acc.

(** [posixpath.normpath(path)] *)
Definition normpath (path : string) : string :=
  if String.eqb path "" then "."
  else
    let n := leading_slashes path in
    let initial_slashes :=
      match n with O => O | 2%nat => 2%nat | _ => 1%nat end in
    let comps :=
      rev (fold_left (normpath_step initial_slashes) (split_slash path) []) in
    let body := join_slash comps in
    let out :=
      match initial_slashes with
      | O => body
      | 1%nat => "/" +:+ body
      | _ => "//" +:+ body
      end in
    if String.eqb out "" then "." else out.

(** [os.path.abspath(path)] in a process whose working directory is
    [cwd]. *)
Definition abspath (cwd path : string) : string :=
  normpath (if isabs path then path else join cwd path).

(** A [pathlib.PurePosixPath]: its root and its components. *)
Record PurePath : Type := mkPath { root : string; parts : list string }.

#[global] Instance PurePath_eq_dec : EqDecision PurePath.
Proof. solve_decision. Defined.

(** [pathlib.Path(s)]: the root is ["//"] for exactly two leading slashes
    and ["/"] for any other positive number; empty and ["."] components
    are dropped, [".."] components are kept. *)
Definition Path (s : string) : PurePath :=
  {| root := match leading_slashes s with
             | O => ""
             | 2%nat => "//"
             | _ => "/"
             end;
     parts := filter (fun x => x <> "" /\ x <> ".") (split_slash s) |}.

(** [str(p)] *)
Definition str (p : PurePath) : string :=
  let out := root p +:+ join_slash (parts p) in
  if String.eqb out "" then "." else out.

End PosixPath.

(* ===================================================================== *)
(** ** The [logging] package *)
(* ===================================================================== *)

(** The objects of Python's [logging] package that [logger.py] touches:
    levels, formatters, handlers, loggers and the manager that owns the
    name-keyed registry.  Two things are outside the model: what a sink
    writes (emitting a record changes no attribute of a logger or of a
    handler), and failures of the environment while a sink is built (the
    file can be opened, the pattern is one that [Formatter] accepts). *)

Module Logging.
Import Py.

Definition CRITICAL : Z := 50.
Definition ERROR : Z := 40.
Definition WARNING : Z := 30.
Definition INFO : Z := 20.
Definition DEBUG : Z := 10.
Definition NOTSET : Z := 0.

Definition _nameToLevel : list (string * Z) :=
  [ ("CRITICAL", CRITICAL); ("FATAL", CRITICAL); ("ERROR", ERROR);
    ("WARN", WARNING); ("WARNING", WARNING); ("INFO", INFO);
    ("DEBUG", DEBUG); ("NOTSET", NOTSET) ].

Fixpoint assoc {A} (k : string) (l : list (string * A)) : option A :=
  match l with
  | [] => None
  | (k', v) :: l' => if String.eqb k k' then Some v else assoc k l'
  end.

(** [logging._checkLevel]: an integer stands for itself ([bool] is a
    subclass of [int]), a string must be a registered level name. *)
Definition _checkLevel (level : value) : res Z :=
  match level with
  | VInt n => Ok n
  | VBool b => Ok (if b then 1 else 0)
  | VStr s =>
      match assoc s _nameToLevel with
      | Some n => Ok n
      | None => Raise (ValueError ("Unknown level: " +:+ s))
      end
  | _ => Raise (TypeError "Level not an integer or a valid string")
  end.

(** [logging.Formatter(fmt=..., datefmt=...)] *)
Record Formatter : Type := mkFormatter { fmt : string; datefmt : string }.

(** The handler classes, with the subclass relation of the library:
    [FileHandler] extends [StreamHandler]; the rotating handlers extend
    [FileHandler]. *)
Inductive handler_class : Type :=
| StreamHandler
| FileHandler
| RotatingFileHandler
| TimedRotatingFileHandler
| NullHandler
| OtherHandler.

(** A handler object.  [hid] is its identity: handlers compare by
    identity.  [stream] is the name of the open stream, [None] when the
    [stream] attribute is [None] (a file handler that was closed or made
    with [delay=True]). *)
Record Handler : Type := mkHandler {
  hid : nat;
  hclass : handler_class;
  hlevel : Z;
  formatter : option Formatter;
  filters : list string;
  stream : option string;
  baseFilename : string;
  mode : string;
  maxBytes : Z;
  backupCount : Z
}.

(** [isinstance(h, logging.StreamHandler)] *)
Definition isinstance_StreamHandler (h : Handler) : bool :=
  match hclass h with
  | StreamHandler | FileHandler | RotatingFileHandler
  | TimedRotatingFileHandler => true
  | NullHandler | OtherHandler => false
  end.

(** [isinstance(h, logging.FileHandler)] *)
Definition isinstance_FileHandler (h : Handler) : bool :=
  match hclass h with
  | FileHandler | RotatingFileHandler | TimedRotatingFileHandler => true
  | StreamHandler | NullHandler | OtherHandler => false
  end.

(** [isinstance(h, RotatingFileHandler)] *)
Definition isinstance_RotatingFileHandler (h : Handler) : bool :=
  match hclass h with
  | RotatingFileHandler => true
  | _ => false
  end.

(** [logging.StreamHandler(stream)] for a stream of the given name. *)
Definition new_StreamHandler (id : nat) (stream_name : string) : Handler :=
  {| hid := id; hclass := StreamHandler; hlevel := NOTSET;
     formatter := None; filters := []; stream := Some stream_name;
     baseFilename := ""; mode := ""; maxBytes := 0; backupCount := 0 |}.

(** [logging.FileHandler(filename, mode=...)]: the file name is made
    absolute and the file is opened at once. *)
Definition new_FileHandler (cwd : string) (id : nat)
    (filename filemode : string) : Handler :=
  let base := PosixPath.abspath cwd filename in
  {| hid := id; hclass := FileHandler; hlevel := NOTSET;
     formatter := None; filters := []; stream := Some base;
     baseFilename := base; mode := filemode; maxBytes := 0;
     backupCount := 0 |}.

(** [RotatingFileHandler(filename, mode=..., maxBytes=..., backupCount=...)]:
    a positive [maxBytes] forces append mode. *)
Definition new_RotatingFileHandler (cwd : string) (id : nat)
    (filename filemode : string) (max_bytes backup_count : Z) : Handler :=
  let base := PosixPath.abspath cwd filename in
  {| hid := id; hclass := RotatingFileHandler; hlevel := NOTSET;
     formatter := None; filters := []; stream := Some base;
     baseFilename := base;
     mode := if 0 <? max_bytes then "a" else filemode;
     maxBytes := max_bytes; backupCount := backup_count |}.

(** [h.setFormatter(f)] *)
Definition Handler_setFormatter (f : Formatter) (h : Handler) : Handler :=
  {| hid := hid h; hclass := hclass h; hlevel := hlevel h;
     formatter := Some f; filters := filters h; stream := stream h;
     baseFilename := baseFilename h; mode := mode h;
     maxBytes := maxBytes h; backupCount := backupCount h |}.

(** [h.setLevel(level)] *)
Definition Handler_setLevel (level : value) (h : Handler) : res Handler :=
  match _checkLevel level with
  | Ok n =>
      Ok {| hid := hid h; hclass := hclass h; hlevel := n;
            formatter := formatter h; filters := filters h;
            stream := stream h; baseFilename := baseFilename h;
            mode := mode h; maxBytes := maxBytes h;
            backupCount := backupCount h |}
  | Raise e => Raise e
  end.

(** [h.addFilter(f)] *)
Definition Handler_addFilter (f : string) (h : Handler) : Handler :=
  {| hid := hid h; hclass := hclass h; hlevel := hlevel h;
     formatter := formatter h;
     filters := if bool_decide (f ∈ filters h) then filters h
                else filters h ++ [f];
     stream := stream h; baseFilename := baseFilename h; mode := mode h;
     maxBytes := maxBytes h; backupCount := backupCount h |}.

(** A logger object.  [parent] names the parent logger; only the root
    has none. *)
Record Logger : Type := mkLogger {
  level : Z;
  parent : option string;
  propagate : bool;
  disabled : bool;
  handlers : list Handler
}.

Definition set_handlers (hs : list Handler) (lg : Logger) : Logger :=
  {| level := level lg; parent := parent lg; propagate := propagate lg;
     disabled := disabled lg; handlers := hs |}.

Definition set_level (n : Z) (lg : Logger) : Logger :=
  {| level := n; parent := parent lg; propagate := propagate lg;
     disabled := disabled lg; handlers := handlers lg |}.

Definition set_parent (p : option string) (lg : Logger) : Logger :=
  {| level := level lg; parent := p; propagate := propagate lg;
     disabled := disabled lg; handlers := handlers lg |}.

(** [Logger(name)]: level [NOTSET], no handlers, propagating. *)
Definition new_Logger : Logger :=
  {| level := NOTSET; parent := None; propagate := true; disabled := false;
     handlers := [] |}.

(** [hdlr in self.handlers]: membership is by identity. *)
Definition handler_in (h : Handler) (hs : list Handler) : bool :=
  existsb (fun x => Nat.eqb (hid x) (hid h)) hs.

(** [self.handlers.remove(hdlr)]: the first entry that is [hdlr]. *)
Fixpoint list_remove (h : Handler) (hs : list Handler) : list Handler :=
  match hs with
  | [] => []
  | x :: hs' => if Nat.eqb (hid x) (hid h) then hs' else x :: list_remove h hs'
  end.

(** [logger.addHandler(hdlr)] *)
Definition addHandler (h : Handler) : M Logger unit :=
  modify (fun lg =>
    if handler_in h (handlers lg) then lg
    else set_handlers (handlers lg ++ [h]) lg).

(** [logger.removeHandler(hdlr)] *)
Definition removeHandler (h : Handler) : M Logger unit :=
  modify (fun lg =>
    if handler_in h (handlers lg)
    then set_handlers (list_remove h (handlers lg)) lg
    else lg).

(** [logger.setLevel(level)] *)
Definition setLevel (lvl : value) : M Logger unit :=
  n ← lift (_checkLevel lvl); modify (set_level n).

(** [logger.debug(msg)]: the record goes to the sinks; no attribute of
    the logger changes. *)
Definition debug (msg : string) : M Logger unit := ret tt.

(** The identity of a newly built object differs from that of every
    handler attached to the logger at hand. *)
Definition fresh_hid (lg : Logger) : nat :=
  S (foldr Nat.max O (map hid (handlers lg))).

(** *** The manager and its registry *)

(** An entry of [Manager.loggerDict]: a logger, or a placeholder that
    lists the loggers created below a name that has no logger yet. *)
Inductive node : Type :=
| LoggerNode (lg : Logger)
| PlaceHolder (children : list string).

(** The root logger is named ["root"] and lives outside [loggerDict]. *)
Record Manager : Type := mkManager {
  root : Logger;
  loggerDict : gmap string node
}.

(** The state of a fresh interpreter: the root logger at [WARNING]. *)
Definition initial_manager : Manager :=
  {| root := set_level WARNING new_Logger; loggerDict := ∅ |}.

(** A handle is the name of the logger it refers to. *)
Definition lookup_logger (m : Manager) (name : string) : option Logger :=
  if String.eqb name "root" then Some (root m)
  else match loggerDict m !! name with
       | Some (LoggerNode lg) => Some lg
       | _ => None
       end.

Definition store_logger (m : Manager) (name : string) (lg : Logger)
  : Manager :=
  if String.eqb name "root"
  then {| root := lg; loggerDict := loggerDict m |}
  else {| root := root m;
          loggerDict := <[name := LoggerNode lg]> (loggerDict m) |}.

(** Run a method of the logger behind a handle. *)
Definition with_logger {A} (name : string) (c : M Logger A) : M Manager A :=
  zoom (fun m => lookup_logger m name) (fun m lg => store_logger m name lg)
       (ReferenceError name) c.

Definition alter_logger (f : Logger -> Logger) (n : node) : node :=
  match n with
  | LoggerNode lg => LoggerNode (f lg)
  | PlaceHolder cs => PlaceHolder cs
  end.

(** [PlaceHolder.append] *)
Definition placeholder_append (child : string) (cs : list string)
  : list string :=
  if bool_decide (child ∈ cs) then cs else cs ++ [child].

Definition is_dot_at (name : string) (i : nat) : bool :=
  match String.get i name with
  | Some c => Ascii.eqb c "."
  | None => false
  end.

(** The loop of [Manager._fixupParents]: [k] bounds the search of
    [name.rfind(".", 0, k)]; the loop ends at the first ancestor that is
    a logger ([rv]) or when no dot at a positive index is left. *)
Fixpoint _fixupParents_scan (name : string) (k : nat) (d : gmap string node)
  : option string * gmap string node :=
  match k with
  | S k' =>
      match k' with
      | S k'' =>
          if is_dot_at name k' then
            let substr := String.substring 0 k' name in
            match d !! substr with
            | None =>
                _fixupParents_scan name k''
                  (<[substr := PlaceHolder [name]]> d)
            | Some (LoggerNode _) => (Some substr, d)
            | Some (PlaceHolder cs) =>
                _fixupParents_scan name k''
                  (<[substr := PlaceHolder (placeholder_append name cs)]> d)
            end
          else _fixupParents_scan name k' d
      | O => (None, d)
      end
  | O => (None, d)
  end.

(** [Manager._fixupParents(alogger)] *)
Definition _fixupParents (name : string) (d : gmap string node)
  : gmap string node :=
  let '(rv, d') := _fixupParents_scan name (String.length name) d in
  alter (alter_logger (set_parent (Some (default "root" rv)))) name d'.

(** The parent of a registered logger, as a name. *)
Definition parent_name (d : gmap string node) (c : string) : option string :=
  match d !! c with
  | Some (LoggerNode lg) => parent lg
  | _ => None
  end.

(** [Manager._fixupChildren(ph, alogger)] *)
Definition _fixupChildren (children : list string) (name : string)
    (d : gmap string node) : gmap string node :=
  fold_left
    (fun d c =>
       match parent_name d c with
       | Some pn =>
           if String.eqb (String.substring 0 (String.length name) pn) name
           then d
           else
             alter (alter_logger (set_parent (Some name))) c
               (alter (alter_logger (set_parent (Some pn))) name d)
       | None => d
       end)
    children d.

(** [Manager.getLogger(name)] *)
Definition Manager_getLogger (name : string) : M Manager string :=
  fun m =>
    let d := loggerDict m in
    match d !! name with
    | Some (LoggerNode _) => (Ok name, m)
    | Some (PlaceHolder cs) =>
        let d1 := <[name := LoggerNode new_Logger]> d in
        let d2 := _fixupChildren cs name d1 in
        (Ok name, {| root := root m; loggerDict := _fixupParents name d2 |})
    | None =>
        let d1 := <[name := LoggerNode new_Logger]> d in
        (Ok name, {| root := root m; loggerDict := _fixupParents name d1 |})
    end.

(** [logging.getLogger(name)]: the empty name and the root's own name
    give the root logger. *)
Definition getLogger (name : string) : M Manager string :=
  if String.eqb name "" || String.eqb name "root" then ret "root"
  else Manager_getLogger name.



End Logging.

(* ===================================================================== *)
(** ** [hhnk_research_tools/logger.py] *)
(* ===================================================================== *)

Module logger.
Import Py Logging.

Definition LOGFORMAT : string :=
  "%(asctime)s|%(levelname)-8s| %(name)s:%(lineno)-4d| %(message)s".
Definition DATEFMT : string := "%H:%M:%S".

(** *** The configuration dictionary *)

(** The dictionary that [logging.config.dictConfig] consumes: its two
    scalar entries and its three tables, each table a dictionary of
    dictionaries. *)
Record LogConfig : Type := mkLogConfig {
  cfg_version : Z;
  cfg_disable_existing_loggers : bool;
  cfg_loggers : gmap string (gmap string value);
  cfg_handlers : gmap string (gmap string value);
  cfg_formatters : gmap string (gmap string value)
}.

(** What the process holds besides the module's locals: the dictionaries
    owned by callers (a [level_dict] is passed by reference) and the
    global state of the [logging] package. *)
Record World : Type := mkWorld {
  heap : gmap nat (list (value * value));
  logging : Manager
}.

(** [d.items()] of a caller's dictionary, in insertion order. *)
Definition dict_items (ref : nat) : M World (list (value * value)) :=
  fun w =>
    match heap w !! ref with
    | Some d => (Ok d, w)
    | None => (Raise (ReferenceError "dict"), w)
    end.

(** The dictionary literal that opens [get_logconfig_dict]. *)
Definition logconfig_literal (level_root : value) : LogConfig :=
  {| cfg_version := 1;
     cfg_disable_existing_loggers := false;
     cfg_loggers :=
       {[ "" := {[ "level" := level_root;
                   "handlers" := VList ["debug_console_handler"; "stderr"] ]} ]};
     cfg_handlers :=
       {[ "null" := {[ "class" := VStr "logging.NullHandler" ]};
          "debug_console_handler" :=
            {[ "level" := VStr "NOTSET";
               "formatter" := VStr "time_level_name";
               "class" := VStr "logging.StreamHandler";
               "stream" := VStr "ext://sys.stdout" ]};
          "stderr" :=
            {[ "level" := VStr "ERROR";
               "formatter" := VStr "time_level_name";
               "class" := VStr "logging.StreamHandler";
               "stream" := VStr "ext://sys.stderr" ]} ]};
     cfg_formatters :=
       {[ "time_level_name" :=
            {[ "format" := VStr LOGFORMAT; "datefmt" := VStr DATEFMT ]} ]} |}.

(** [logconfig_dict["loggers"][pkg] = {"level": loglevel}] *)
Definition set_logger_level (cfg : LogConfig) (pkg : string)
    (loglevel : value) : LogConfig :=
  {| cfg_version := cfg_version cfg;
     cfg_disable_existing_loggers := cfg_disable_existing_loggers cfg;
     cfg_loggers := <[pkg := {[ "level" := loglevel ]}]> (cfg_loggers cfg);
     cfg_handlers := cfg_handlers cfg;
     cfg_formatters := cfg_formatters cfg |}.

(** The entry written for a log file. *)
Definition info_rotating_file_handler (log_filepath : value)
  : gmap string value :=
  {[ "level" := VStr "INFO";
     "formatter" := VStr "time_level_name";
     "class" := VStr "logging.handlers.TimedRotatingFileHandler";
     "when" := VStr "D";
     "backupCount" := VInt 7;
     "filename" := log_filepath ]}.

(** [logconfig_dict["handlers"]["info_rotating_file_handler"] = {...}] *)
Definition set_file_handler (cfg : LogConfig) (log_filepath : value)
  : LogConfig :=
  {| cfg_version := cfg_version cfg;
     cfg_disable_existing_loggers := cfg_disable_existing_loggers cfg;
     cfg_loggers := cfg_loggers cfg;
     cfg_handlers :=
       <["info_rotating_file_handler" :=
           info_rotating_file_handler log_filepath]> (cfg_handlers cfg);
     cfg_formatters := cfg_formatters cfg |}.

(** The body of [for loglevel, level_list in level_dict.items()]. *)
Definition apply_level (cfg : LogConfig) (item : value * value)
  : M World LogConfig :=
  let '(loglevel, level_list) := item in
  if negb (isinstance_list level_list)
  then raise (TypeError "Level_dict should provide lists.")
  else
    ret (fold_left (fun c pkg => set_logger_level c pkg loglevel)
           (list_items level_list) cfg).

(** [get_logconfig_dict(level_root, level_dict, log_filepath)];
    [level_dict] is [None] or a reference to the caller's dictionary. *)
Definition get_logconfig_dict (level_root : value) (level_dict : option nat)
    (log_filepath : value) : M World LogConfig :=
  let logconfig_dict := logconfig_literal level_root in
  logconfig_dict ←
    match level_dict with
    | None => ret logconfig_dict
    | Some ref =>
        items ← dict_items ref;
        if Nat.eqb (length items) 0 then ret logconfig_dict
        else for_fold apply_level logconfig_dict items
    end;
  if truthy log_filepath
  then ret (set_file_handler logconfig_dict log_filepath)
  else ret logconfig_dict.

(** The defaults of the keyword arguments. *)
Definition default_level_root : value := VStr "WARNING".

Section Configure.

(** [logging.config.dictConfig], which belongs to the logging package. *)
Variable dictConfig : LogConfig -> M Manager unit.

(** [set_default_logconfig(level_root, level_dict, log_filepath)] *)
Definition set_default_logconfig (level_root : value)
    (level_dict : option nat) (log_filepath : value) : M World unit :=
  log_config ← get_logconfig_dict level_root level_dict log_filepath;
  zoom (fun w => Some (logging w))
       (fun w m => {| heap := heap w; logging := m |})
       (ReferenceError "logging")
       (dictConfig log_config).

End Configure.

(** *** File sinks *)

(** The [filepath] argument: [Union[str, Path]]. *)
Inductive path_arg : Type :=
| PathStr (s : string)
| PathObj (p : PosixPath.PurePath).

(** [str(filepath)] *)
Definition path_str (filepath : path_arg) : string :=
  match filepath with
  | PathStr s => s
  | PathObj p => PosixPath.str p
  end.

(** [Path(name) == filepath]: a [Path] is never equal to a [str]. *)
Definition path_equals (name : string) (filepath : path_arg) : bool :=
  match filepath with
  | PathStr _ => false
  | PathObj p => bool_decide (PosixPath.Path name = p)
  end.

(** The body of the loop [for handler in logger.handlers] of
    [add_file_handler]: a file handler whose stream is the file asked for
    is removed. *)
Definition remove_if_same_file (filepath : path_arg) (handler : Handler)
  : M Logger unit :=
  if isinstance_FileHandler handler || isinstance_RotatingFileHandler handler
  then
    match stream handler with
    | None =>
        raise (AttributeError "'NoneType' object has no attribute 'name'")
    | Some name =>
        if path_equals name filepath then
          removeHandler handler;;
          debug "Removed existing FileHandler, logger probably imported multiple times"
        else ret tt
    end
  else ret tt.

(** The loop itself.  The iterator reads the live list at index [i], and
    [removeHandler] shortens that list while the loop runs.  [fuel]
    bounds the number of rounds: the length of the list when the loop
    starts is enough. *)
Fixpoint remove_existing (fuel i : nat) (filepath : path_arg)
  : M Logger unit :=
  match fuel with
  | O => ret tt
  | S fuel' =>
      hs ← gets handlers;
      match hs !! i with
      | None => ret tt
      | Some handler =>
          remove_if_same_file filepath handler;;
          remove_existing fuel' (S i) filepath
      end
  end.

Section FileSinks.
Context {process : Process}.

(** [add_file_handler(logger, filepath, filemode, filelevel, fmt, datefmt,
    maxBytes, backupCount, rotate, logfilter)]; the logger is the state. *)
Definition add_file_handler (filepath : path_arg) (filemode : string)
    (filelevel : value) (fmt datefmt : string) (maxBytes backupCount : Z)
    (rotate : bool) (logfilter : option string) : M Logger unit :=
  hs ← gets handlers;
  remove_existing (length hs) 0 filepath;;
  id ← gets fresh_hid;
  let file_handler :=
    if rotate
    then new_FileHandler getcwd id (path_str filepath) filemode
    else new_RotatingFileHandler getcwd id (path_str filepath) filemode
           maxBytes backupCount in
  let formatter := mkFormatter fmt datefmt in
  let file_handler := Handler_setFormatter formatter file_handler in
  filelevel ←
    (if bool_decide (filelevel = VStr "")
     then gets (fun lg => VInt (level lg))
     else ret filelevel);
  file_handler ← lift (Handler_setLevel filelevel file_handler);
  file_handler ←
    match logfilter with
    | Some f =>
        let file_handler := Handler_addFilter f file_handler in
        debug "Added filter to FileHandler";;
        ret file_handler
    | None => ret file_handler
    end;
  addHandler file_handler.

End FileSinks.

(** The defaults of the keyword arguments of [add_file_handler]. *)
Definition default_filemode : string := "a".
Definition default_filelevel : value := VStr "".
Definition default_file_datefmt : string := "%Y-%m-%d %H:%M:%S".
Definition default_maxBytes : Z := 10 * 1024 * 1024.
Definition default_backupCount : Z := 5.

(** *** Console sinks *)

(** The loop [for handler in logger.handlers] of
    [_add_or_update_streamhandler_format]: [todo] is what the iterator
    has left, [i] the index of its head.  The result tells whether the
    function returned from inside the loop. *)
Fixpoint update_first_stream (f : Formatter) (i : nat) (todo : list Handler)
  : M Logger bool :=
  match todo with
  | [] => ret false
  | handler :: rest =>
      if isinstance_StreamHandler handler then
        modify (fun lg =>
          set_handlers (alter (Handler_setFormatter f) i (handlers lg)) lg);;
        debug "Updated StreamHandler formatter";;
        ret true
      else update_first_stream f (S i) rest
  end.

(** [_add_or_update_streamhandler_format(logger, fmt, datefmt)] *)
Definition _add_or_update_streamhandler_format (fmt datefmt : string)
  : M Logger unit :=
  hs ← gets handlers;
  returned ← update_first_stream (mkFormatter fmt datefmt) 0 hs;
  if (returned : bool) then ret tt
  else
    id ← gets fresh_hid;
    let stream_handler := new_StreamHandler id "<stdout>" in
    let stream_handler :=
      Handler_setFormatter (mkFormatter fmt datefmt) stream_handler in
    addHandler stream_handler;;
    debug "Added new StreamHandler with formatter".

(** *** Named loggers *)

(** The alias table of [get_logger], in the order it is written. *)
Definition replacements : list (string * string) :=
  [ ("hhnk_research_tools", "hrt"); ("hhnk_threedi_tools", "htt") ].

(** [for old, new in replacements.items(): name = name.replace(old, new)] *)
Definition rename (name : string) : string :=
  fold_left (fun n '(old, new) => PyStr.replace n old new) replacements name.

(** [get_logger(name, level, fmt, datefmt)]; the result is the handle. *)
Definition get_logger (name : string) (level : value) (fmt datefmt : string)
  : M Manager string :=
  let name := rename name in
  logger ← getLogger name;
  (if bool_decide (level = VNone) then ret tt
   else with_logger logger (setLevel level));;
  (if negb (String.eqb fmt LOGFORMAT) || negb (String.eqb datefmt DATEFMT)
   then with_logger logger (_add_or_update_streamhandler_format fmt datefmt)
   else ret tt);;
  ret logger.

End logger.

(* ===================================================================== *)
(** ** Notions used to state the properties *)
(* ===================================================================== *)

Module Notions.
Import Py Logging logger PyStr.

(** *** Names *)

Definition old1 : list ascii := String.list_ascii_of_string "hhnk_research_tools".
Definition new1 : list ascii := String.list_ascii_of_string "hrt".
Definition old2 : list ascii := String.list_ascii_of_string "hhnk_threedi_tools".
Definition new2 : list ascii := String.list_ascii_of_string "htt".

(** The rewrite on character lists. *)
Definition rename_chars (s : list ascii) : list ascii :=
  replace_from old2 new2 0 (replace_from old1 new1 0 s).

(** The handle that [logging.getLogger] gives for a name. *)
Definition handle_of (name : string) : string :=
  if String.eqb name "" || String.eqb name "root" then "root" else name.

(** *** Registry *)

Definition is_logger_node (o : option node) : Prop :=
  exists lg, o = Some (LoggerNode lg).

(** *** Configuration *)

(** What a [level_dict] argument denotes: [None] passes no mapping, a
    reference passes the caller's dictionary. *)
Definition dict_content (w : World) (level_dict : option nat)
  : option (list (value * value)) :=
  match level_dict with
  | None => Some []
  | Some ref => heap w !! ref
  end.

(** Every value of the mapping is a list. *)
Definition all_lists (items : list (value * value)) : bool :=
  forallb (fun item => isinstance_list item.2) items.

(** The list [v] names the namespace [pkg]. *)
Definition names_pkg (pkg : string) (v : value) : bool :=
  match v with
  | VList pkgs => bool_decide (pkg ∈ pkgs)
  | _ => false
  end.

(** The level key of the last item of the mapping whose list names
    [pkg], if any. *)
Fixpoint last_level (pkg : string) (items : list (value * value))
  : option value :=
  match items with
  | [] => None
  | (lvl, v) :: rest =>
      match last_level pkg rest with
      | Some l => Some l
      | None => if names_pkg pkg v then Some lvl else None
      end
  end.

(** The effect of one item, and of all items, on the descriptor. *)
Definition level_applied (cfg : LogConfig) (item : value * value)
  : LogConfig :=
  fold_left (fun c pkg => set_logger_level c pkg item.1)
    (list_items item.2) cfg.

Definition levels_applied (cfg : LogConfig) (items : list (value * value))
  : LogConfig :=
  fold_left level_applied items cfg.

(** The descriptor once the mapping is applied: the file sink goes in
    for a path that counts as true. *)
Definition finished (cfg : LogConfig) (log_filepath : value) : LogConfig :=
  if truthy log_filepath then set_file_handler cfg log_filepath else cfg.

(** The root entry as the dictionary literal has it. *)
Definition root_entry (level_root : value) : gmap string value :=
  {[ "level" := level_root;
     "handlers" := VList ["debug_console_handler"; "stderr"] ]}.

(** The error of a mapping with a value that is not a list. *)
Definition not_a_list : exn := TypeError "Level_dict should provide lists.".

(** *** Sinks *)


(** A file-backed sink. *)
Definition is_file_sink (h : Handler) : bool := isinstance_FileHandler h.


(** A file-backed sink whose open stream is the file [name]. *)
Definition writes_to (name : string) (h : Handler) : bool :=
  is_file_sink h && bool_decide (stream h = Some name).

Definition count_writers (name : string) (hs : list Handler) : nat :=
  length (List.filter (writes_to name) hs).




(** The sink that [add_file_handler] builds, before its level is set. *)
Definition built_sink {process : Process} (filepath : path_arg)
    (filemode fmt datefmt : string) (maxBytes backupCount : Z)
    (rotate : bool) (id : nat) : Handler :=
  Handler_setFormatter (mkFormatter fmt datefmt)
    (if rotate
     then new_FileHandler getcwd id (path_str filepath) filemode
     else new_RotatingFileHandler getcwd id (path_str filepath) filemode
            maxBytes backupCount).

(** The sink that a call with every keyword argument at its default
    leaves on a logger whose own level is [lvl]. *)
Definition default_sink {process : Process} (filepath : path_arg) (lvl : Z)
    (id : nat) : Handler :=
  {| hid := id; hclass := RotatingFileHandler; hlevel := lvl;
     formatter := Some (mkFormatter LOGFORMAT default_file_datefmt);
     filters := [];
     stream := Some (PosixPath.abspath getcwd (path_str filepath));
     baseFilename := PosixPath.abspath getcwd (path_str filepath);
     mode := "a"; maxBytes := default_maxBytes;
     backupCount := default_backupCount |}.

(** *** Sample loggers *)



(** A logger with one console sink. *)
Definition console_logger : Logger :=
  set_handlers [new_StreamHandler 1 "<stdout>"] new_Logger.

(** A process working in a user's directory. *)
Definition sample_process : Process := {| getcwd := "/home/user" |}.

(** The registry of a fresh interpreter after [logging.getLogger("app")],
    and the logger it made. *)
Definition app_manager : Manager := (getLogger "app" initial_manager).2.


(** [add_file_handler] with every keyword argument left at its default. *)
Definition add_file_handler_defaults {process : Process}
    (filepath : path_arg) : M Logger unit :=
  add_file_handler filepath default_filemode default_filelevel LOGFORMAT
    default_file_datefmt default_maxBytes default_backupCount false None.

(** A process with four dictionaries owned by callers: a well-formed
    mapping, one that lists [app] under two levels, one that lists the
    empty namespace, and one whose value is a string. *)
Definition sample_world : World :=
  {| heap :=
       {[ 0%nat := [(VStr "DEBUG", VList ["app"])];
          1%nat := [(VStr "DEBUG", VList ["app"]); (VStr "INFO", VList ["app"])];
          2%nat := [(VStr "DEBUG", VList [""])];
          3%nat := [(VStr "INFO", VStr "app")] ]};
     logging := initial_manager |}.

(** The same dictionaries next to another state of the logging package. *)
Definition other_world : World :=
  {| heap := heap sample_world;
     logging := app_manager |}.

End Notions.

(* ===================================================================== *)
(** ** Further notions *)
(* ===================================================================== *)

Module MoreNotions.
Import Py Logging logger Notions.

(** *** Loggers *)




(** *** Sinks *)

(** The sink is the one that [add_file_handler] looks for: a file
    handler whose open stream is the file asked for. *)
Definition names_file (filepath : path_arg) (h : Handler) : bool :=
  is_file_sink h &&
  match stream h with
  | Some name => path_equals name filepath
  | None => false
  end.

(** The loop of [add_file_handler] passes the sink by: it is no file
    handler, or its open stream is another file. *)
Definition passed_by (filepath : path_arg) (h : Handler) : bool :=
  negb (is_file_sink h) ||
  match stream h with
  | Some name => negb (path_equals name filepath)
  | None => false
  end.




(** *** Configuration *)

(** All the namespaces that the mapping names, list after list. *)
Definition named_pkgs (items : list (value * value)) : list string :=
  concat (map (fun item => list_items item.2) items).

(** Two callers' mappings with the same items in another order, and a
    logger that holds a sink on [/tmp/x.log] and a closed file handler. *)
Definition permuted_world : World :=
  {| heap :=
       {[ 0%nat := [(VStr "DEBUG", VList ["a"; "b"]); (VStr "INFO", VList ["c"])];
          1%nat := [(VStr "INFO", VList ["c"]); (VStr "DEBUG", VList ["a"; "b"])] ]};
     logging := initial_manager |}.

Definition tmp_sink : Handler := new_FileHandler "/" 1 "/tmp/x.log" "a".

Definition closed_sink : Handler :=
  {| hid := 2; hclass := FileHandler; hlevel := NOTSET; formatter := None;
     filters := []; stream := None; baseFilename := "/tmp/y.log";
     mode := "a"; maxBytes := 0; backupCount := 0 |}.


Definition closed_logger : Logger :=
  set_handlers [new_StreamHandler 0 "<stderr>"; closed_sink; tmp_sink]
    new_Logger.

End MoreNotions.

(* ===================================================================== *)
(** ** Facts about [str.replace] *)
(* ===================================================================== *)

Module PyStrFacts.
Import PyStr.

Lemma startswith_app p r : startswith p (p ++ r) = true.
Proof.
  induction p as [|a p IH]; simpl; [done|].
  by rewrite Ascii.eqb_refl.
Qed.

Lemma startswith_inv p s :
  startswith p s = true -> exists r, s = p ++ r.
Proof.
  revert s. induction p as [|a p IH]; intros s H.
  - by exists s.
  - destruct s as [|b s]; simpl in H; [done|].
    apply andb_prop in H as [Hab Hps].
    apply Ascii.eqb_eq in Hab as ->.
    destruct (IH _ Hps) as [r ->]. by exists r.
Qed.

Lemma startswith_app_split p u x :
  startswith p (u ++ x) = true ->
  startswith p u = true \/
  exists b, p = u ++ b /\ b <> [] /\ startswith b x = true.
Proof.
  revert u. induction p as [|a p IH]; intros u H.
  - left. by destruct u.
  - destruct u as [|c u].
    + right. exists (a :: p). by repeat split.
    + simpl in H. apply andb_prop in H as [Hac Hp].
      apply Ascii.eqb_eq in Hac as ->.
      destruct (IH _ Hp) as [Hl | (b & -> & Hb & Hx)].
      * left. simpl. by rewrite Ascii.eqb_refl.
      * right. exists b. by repeat split.
Qed.

Lemma startswith_comparable p b x :
  startswith p (b ++ x) = true -> comparable p b = true.
Proof.
  intros H. unfold comparable.
  destruct (startswith_app_split _ _ _ H) as [-> | (c & -> & _ & _)];
    [done|].
  rewrite startswith_app. apply orb_true_r.
Qed.

Lemma startswith_weaken p u x :
  startswith p u = true -> startswith p (u ++ x) = true.
Proof.
  intros H. destruct (startswith_inv _ _ H) as [r ->].
  rewrite <- app_assoc. apply startswith_app.
Qed.

Lemma occurs_nil_r p : p <> [] -> occurs p [] = false.
Proof. by destruct p. Qed.

Lemma occurs_app_false p a b :
  occurs p (a ++ b) = false -> occurs p a = false /\ occurs p b = false.
Proof.
  induction a as [|c a IH]; simpl; intros H.
  - split; [|done]. destruct p; [|done].
    destruct b; simpl in H; done.
  - apply orb_false_elim in H as [H1 H2].
    destruct (IH H2) as [Ha Hb]. split; [|done].
    rewrite Ha, orb_false_r.
    destruct (startswith p (c :: a)) eqn:E; [|done].
    apply (startswith_weaken _ _ b) in E. simpl in E. congruence.
Qed.

(** *** Unfolding equations of the scan *)

Lemma replace_from_skip old new k s :
  replace_from old new k s = replace_from old new 0 (drop k s).
Proof.
  revert k. induction s as [|c s IH]; intros k.
  - by destruct k.
  - destruct k as [|k]; [done|]. simpl. apply IH.
Qed.

Lemma replace_from_match old new r :
  old <> [] ->
  replace_from old new 0 (old ++ r) = new ++ replace_from old new 0 r.
Proof.
  intros Hne. destruct old as [|a old]; [done|].
  change ((a :: old) ++ r) with (a :: (old ++ r)).
  cbn [replace_from].
  change (a :: (old ++ r)) with ((a :: old) ++ r).
  rewrite startswith_app. f_equal.
  rewrite replace_from_skip. simpl. by rewrite drop_app_length.
Qed.

Lemma replace_from_nomatch old new c s :
  startswith old (c :: s) = false ->
  replace_from old new 0 (c :: s) = c :: replace_from old new 0 s.
Proof. intros H. cbn [replace_from]. by rewrite H. Qed.

(** Nothing to replace: the text comes back unchanged. *)
Lemma replace_from_absent old new s :
  occurs old s = false -> replace_from old new 0 s = s.
Proof.
  induction s as [|c s IH]; [done|].
  intros H. simpl in H. apply orb_false_elim in H as [H1 H2].
  rewrite replace_from_nomatch by done. by rewrite IH.
Qed.

(** The first match splits the text; the scan resumes after it. *)
Lemma replace_from_first old new s :
  old <> [] ->
  occurs old s = true ->
  exists u r,
    s = u ++ old ++ r /\ occurs old u = false /\
    replace_from old new 0 s = u ++ new ++ replace_from old new 0 r.
Proof.
  intros Hne. induction s as [|c s IH]; intros H.
  - by rewrite occurs_nil_r in H.
  - destruct (startswith old (c :: s)) eqn:E.
    + destruct (startswith_inv _ _ E) as [r Hr].
      exists [], r. rewrite Hr. split; [done|].
      split; [by apply occurs_nil_r|].
      by rewrite replace_from_match.
    + simpl in H. simpl in E. rewrite E in H. simpl in H.
      destruct (IH H) as (u & r & -> & Hu & Hrep).
      exists (c :: u), r. split; [done|]. split.
      * simpl. rewrite Hu, orb_false_r.
        destruct (startswith old (c :: u)) eqn:E'; [|done].
        apply (startswith_weaken _ _ (old ++ r)) in E'.
        simpl in E'. congruence.
      * rewrite replace_from_nomatch by done. by rewrite Hrep.
Qed.

(** *** Occurrences after a replacement *)

Lemma forallb_suffixes_tail (P : list ascii -> bool) c l :
  forallb P (suffixes (c :: l)) = true -> forallb P (suffixes l) = true.
Proof. simpl. intros H. by apply andb_prop in H as [_ H]. Qed.

Lemma occurs_after_insert pat b x :
  forallb (fun t => negb (comparable pat t)) (suffixes b) = true ->
  occurs pat x = false ->
  occurs pat (b ++ x) = false.
Proof.
  intros Hb Hx. induction b as [|c b IH]; [done|].
  change ((c :: b) ++ x) with (c :: (b ++ x)).
  cbn [occurs]. rewrite IH by (by eapply forallb_suffixes_tail).
  rewrite orb_false_r.
  destruct (startswith pat (c :: b ++ x)) eqn:E; [|done].
  apply (startswith_comparable pat (c :: b) x) in E.
  simpl in Hb. apply andb_prop in Hb as [Hb _].
  rewrite E in Hb. done.
Qed.

Lemma suffixes_app u b :
  b <> [] -> b ∈ suffixes (u ++ b).
Proof.
  intros Hb. induction u as [|c u IH].
  - destruct b; [done|]. simpl. apply list_elem_of_here.
  - simpl. by apply list_elem_of_further.
Qed.

(** An inserted [new] between two clean pieces creates no occurrence. *)
Lemma occurs_sandwich pat new u x :
  apart pat new = true ->
  occurs pat u = false ->
  occurs pat x = false ->
  occurs pat (u ++ new ++ x) = false.
Proof.
  intros Hap Hu Hx. unfold apart in Hap.
  apply andb_prop in Hap as [Hpat Hnew].
  induction u as [|c u IH].
  - by apply (occurs_after_insert pat new x).
  - simpl in Hu. apply orb_false_elim in Hu as [Hu1 Hu2].
    change ((c :: u) ++ new ++ x) with (c :: (u ++ new ++ x)).
    cbn [occurs]. rewrite (IH Hu2), orb_false_r.
    destruct (startswith pat (c :: u ++ new ++ x)) eqn:E; [|done].
    destruct (startswith_app_split pat (c :: u) (new ++ x) E)
      as [Hl | (b & Hp & Hb & Hbx)]; [simpl in Hl; congruence|].
    apply startswith_comparable in Hbx.
    rewrite forallb_forall in Hpat.
    assert (Hin : In b (suffixes pat)).
    { rewrite Hp. apply list_elem_of_In. by apply suffixes_app. }
    apply Hpat in Hin. rewrite Hbx in Hin. done.
Qed.

(** After replacing [old], a pattern that was absent before and cannot
    touch [new] is still absent. *)
Lemma occurs_replace_other pat old new s :
  old <> [] ->
  apart pat new = true ->
  occurs pat s = false ->
  occurs pat (replace_from old new 0 s) = false.
Proof.
  intros Hne Hap.
  induction s as [s IH] using (induction_ltof1 _ (@length ascii)).
  unfold ltof in IH. intros Hs.
  destruct (occurs old s) eqn:Ho.
  - destruct (replace_from_first old new s Hne Ho)
      as (u & r & -> & Hu & ->).
    apply occurs_app_false in Hs as [Hpu Hs].
    apply occurs_app_false in Hs as [_ Hpr].
    apply occurs_sandwich; [done..|].
    apply IH; [|done].
    rewrite !length_app. destruct old; [done|]. simpl. lia.
  - by rewrite replace_from_absent.
Qed.

(** After replacing [old] by a [new] it cannot touch, [old] is gone. *)
Lemma occurs_replace_self old new s :
  old <> [] ->
  apart old new = true ->
  occurs old (replace_from old new 0 s) = false.
Proof.
  intros Hne Hap.
  induction s as [s IH] using (induction_ltof1 _ (@length ascii)).
  unfold ltof in IH.
  destruct (occurs old s) eqn:Ho.
  - destruct (replace_from_first old new s Hne Ho)
      as (u & r & -> & Hu & ->).
    apply occurs_sandwich; [done..|].
    apply IH. rewrite !length_app. destruct old; [done|]. simpl. lia.
  - by rewrite replace_from_absent.
Qed.

(** A prefix that [old] cannot touch is copied through. *)
Lemma replace_from_keep_prefix old new pre s :
  forallb (fun t => negb (comparable old t)) (suffixes pre) = true ->
  replace_from old new 0 (pre ++ s) = pre ++ replace_from old new 0 s.
Proof.
  induction pre as [|c pre IH]; intros H; [done|].
  change ((c :: pre) ++ s) with (c :: (pre ++ s)).
  rewrite replace_from_nomatch.
  - rewrite IH by (by eapply forallb_suffixes_tail). done.
  - destruct (startswith old (c :: pre ++ s)) eqn:E; [|done].
    apply (startswith_comparable old (c :: pre) s) in E.
    simpl in H. apply andb_prop in H as [H _]. rewrite E in H. done.
Qed.


End PyStrFacts.

(* ===================================================================== *)
(** ** [get_logger]: the alias rewrite and the registry *)
(* ===================================================================== *)

Module GetLoggerFacts.
Import Py Logging logger PyStr PyStrFacts Notions.

Lemma rename_as_chars name :
  rename name =
  String.string_of_list_ascii (rename_chars (String.list_ascii_of_string name)).
Proof.
  unfold rename, replacements, rename_chars. cbn [fold_left].
  unfold replace at 1. f_equal.
  unfold replace. rewrite String.list_ascii_of_string_of_list_ascii.
  reflexivity.
Qed.

Lemma list_ascii_of_string_app a b :
  String.list_ascii_of_string (a +:+ b) =
  String.list_ascii_of_string a ++ String.list_ascii_of_string b.
Proof. induction a as [|c a IH]; simpl; [done|]. by rewrite IH. Qed.

Lemma string_of_list_ascii_app a b :
  String.string_of_list_ascii (a ++ b) =
  String.string_of_list_ascii a +:+ String.string_of_list_ascii b.
Proof. induction a as [|c a IH]; simpl; [done|]. by rewrite IH. Qed.

(** Neither long name survives the rewrite. *)
Lemma rename_chars_clean s :
  occurs old1 (rename_chars s) = false /\
  occurs old2 (rename_chars s) = false.
Proof.
  unfold rename_chars. split.
  - apply occurs_replace_other; [done | by vm_compute |].
    apply occurs_replace_self; [done | by vm_compute].
  - apply occurs_replace_self; [done | by vm_compute].
Qed.

Lemma rename_chars_idempotent s :
  rename_chars (rename_chars s) = rename_chars s.
Proof.
  destruct (rename_chars_clean s) as [H1 H2].
  unfold rename_chars at 1.
  rewrite (replace_from_absent old1) by done.
  by rewrite (replace_from_absent old2).
Qed.

Lemma rename_chars_prefix rest :
  rename_chars (old1 ++ rest) = new1 ++ rename_chars rest.
Proof.
  unfold rename_chars.
  rewrite replace_from_match by done.
  apply replace_from_keep_prefix. by vm_compute.
Qed.

Lemma rename_idempotent name : rename (rename name) = rename name.
Proof.
  rewrite !rename_as_chars, String.list_ascii_of_string_of_list_ascii.
  by rewrite rename_chars_idempotent.
Qed.

Lemma rename_prefix rest :
  rename ("hhnk_research_tools" +:+ rest) = "hrt" +:+ rename rest.
Proof.
  rewrite !rename_as_chars, list_ascii_of_string_app.
  change (String.list_ascii_of_string "hhnk_research_tools") with old1.
  rewrite rename_chars_prefix, string_of_list_ascii_app. reflexivity.
Qed.

(** *** The registry keeps a logger under the name asked for *)

Lemma is_logger_node_alter f k k' (d : gmap string node) :
  is_logger_node (d !! k) ->
  is_logger_node (alter (alter_logger f) k' d !! k).
Proof.
  intros [lg Hlg]. destruct (decide (k' = k)) as [->|Hne].
  - rewrite lookup_alter_eq, Hlg. simpl. by eexists.
  - rewrite lookup_alter_ne by done. by exists lg.
Qed.

Lemma _fixupParents_scan_unfold name k (d : gmap string node) :
  _fixupParents_scan name (S (S k)) d =
  if is_dot_at name (S k) then
    let substr := String.substring 0 (S k) name in
    match d !! substr with
    | None => _fixupParents_scan name k (<[substr := PlaceHolder [name]]> d)
    | Some (LoggerNode _) => (Some substr, d)
    | Some (PlaceHolder cs) =>
        _fixupParents_scan name k
          (<[substr := PlaceHolder (placeholder_append name cs)]> d)
    end
  else _fixupParents_scan name (S k) d.
Proof. reflexivity. Qed.

Lemma _fixupParents_scan_keeps name k : forall d,
  is_logger_node (d !! name) ->
  is_logger_node ((_fixupParents_scan name k d).2 !! name).
Proof.
  induction k as [k IH] using lt_wf_ind. intros d Hd.
  destruct k as [|[|k'']]; [done..|].
  rewrite _fixupParents_scan_unfold.
  destruct (is_dot_at name (S k'')); [|apply IH; [lia|done]].
  cbv zeta. set (substr := String.substring 0 (S k'') name).
  destruct (d !! substr) as [[lg|cs]|] eqn:E; [done|..].
  - apply IH; [lia|]. destruct Hd as [lg Hlg].
    rewrite lookup_insert_ne; [by exists lg|]. congruence.
  - apply IH; [lia|]. destruct Hd as [lg Hlg].
    rewrite lookup_insert_ne; [by exists lg|]. congruence.
Qed.

Lemma _fixupParents_keeps name d :
  is_logger_node (d !! name) ->
  is_logger_node (_fixupParents name d !! name).
Proof.
  intros Hd. unfold _fixupParents.
  pose proof (_fixupParents_scan_keeps name (String.length name) d Hd) as H.
  destruct (_fixupParents_scan name (String.length name) d) as [rv d'].
  by apply is_logger_node_alter.
Qed.

Lemma _fixupChildren_keeps cs name : forall d,
  is_logger_node (d !! name) ->
  is_logger_node (_fixupChildren cs name d !! name).
Proof.
  unfold _fixupChildren.
  induction cs as [|c cs IH]; intros d Hd; [done|].
  cbn [fold_left]. apply IH.
  destruct (parent_name d c) as [pn|]; [|done].
  destruct (String.eqb _ name); [done|].
  by do 2 apply is_logger_node_alter.
Qed.

Lemma Manager_getLogger_registered name m :
  exists m',
    Manager_getLogger name m = (Ok name, m') /\
    is_logger_node (loggerDict m' !! name).
Proof.
  unfold Manager_getLogger.
  destruct (loggerDict m !! name) as [[lg|cs]|] eqn:E.
  - exists m. split; [done|]. by exists lg.
  - eexists. split; [done|]. cbn [loggerDict].
    apply _fixupParents_keeps, _fixupChildren_keeps.
    rewrite lookup_insert_eq. by eexists.
  - eexists. split; [done|]. cbn [loggerDict].
    apply _fixupParents_keeps.
    rewrite lookup_insert_eq. by eexists.
Qed.

Lemma getLogger_registered name m :
  exists m',
    getLogger name m = (Ok (handle_of name), m') /\
    is_Some (lookup_logger m' (handle_of name)).
Proof.
  unfold getLogger, handle_of.
  destruct (String.eqb name "" || String.eqb name "root") eqn:E.
  - exists m. split; [done|]. by eexists.
  - destruct (Manager_getLogger_registered name m) as (m' & Hrun & lg & Hlg).
    exists m'. split; [done|]. unfold lookup_logger.
    apply orb_false_elim in E as [_ ->]. rewrite Hlg. by eexists.
Qed.

Lemma lookup_store_logger m name lg :
  lookup_logger (store_logger m name lg) name = Some lg.
Proof.
  unfold lookup_logger, store_logger.
  destruct (String.eqb name "root") eqn:E; cbn [root loggerDict].
  - done.
  - by rewrite lookup_insert_eq.
Qed.

(** A method run through a handle leaves the handle registered. *)
Lemma with_logger_registered {A} name (c : M Logger A) m :
  is_Some (lookup_logger m name) ->
  exists lg r lg',
    lookup_logger m name = Some lg /\ c lg = (r, lg') /\
    with_logger name c m = (r, store_logger m name lg') /\
    is_Some (lookup_logger (store_logger m name lg') name).
Proof.
  intros [lg Hlg]. unfold with_logger, zoom. rewrite Hlg.
  destruct (c lg) as [r lg'] eqn:Hc.
  exists lg, r, lg'. repeat split; try done.
  rewrite lookup_store_logger. by eexists.
Qed.

End GetLoggerFacts.

(* ===================================================================== *)
(** ** [_add_or_update_streamhandler_format] *)
(* ===================================================================== *)

Module ConsoleFacts.
Import Py Logging logger Notions.

Ltac run_py :=
  unfold debug;
  unfold mbind, M_bind, bind, mret, M_ret, ret, gets, modify, lift;
  cbn beta iota.


Lemma foldr_max_ge (x : nat) (l : list nat) :
  x ∈ l -> (x <= foldr Nat.max O l)%nat.
Proof.
  induction l as [|y l IH]; intros Hin.
  - by apply elem_of_nil in Hin.
  - apply elem_of_cons in Hin as [->|Hin]; simpl; [lia|].
    specialize (IH Hin). lia.
Qed.

(** A new object is not yet in the sink list. *)
Lemma handler_in_fresh lg h :
  hid h = fresh_hid lg -> handler_in h (handlers lg) = false.
Proof.
  intros Hid. unfold handler_in. apply not_true_is_false. intros Hex.
  apply existsb_exists in Hex as (x & Hx & Heq).
  apply Nat.eqb_eq in Heq. rewrite Hid in Heq. unfold fresh_hid in Heq.
  assert (hid x ∈ map hid (handlers lg)) as Hin.
  { apply list_elem_of_In, in_map. done. }
  apply foldr_max_ge in Hin. lia.
Qed.

Lemma addHandler_fresh lg h :
  hid h = fresh_hid lg ->
  addHandler h lg = (Ok tt, set_handlers (handlers lg ++ [h]) lg).
Proof.
  intros Hid. unfold addHandler, modify.
  by rewrite handler_in_fresh.
Qed.




(** *** The first stream handler *)














(** *** Claims *)






End ConsoleFacts.

Module GetLoggerClaims.
Import Py Logging logger PyStr PyStrFacts Notions GetLoggerFacts ConsoleFacts.




Lemma rename_clean name :
  contains (rename name) "hhnk_research_tools" = false /\
  contains (rename name) "hhnk_threedi_tools" = false.
Proof.
  unfold contains. rewrite rename_as_chars.
  rewrite String.list_ascii_of_string_of_list_ascii.
  apply rename_chars_clean.
Qed.

Lemma rename_absent name :
  contains name "hhnk_research_tools" = false ->
  contains name "hhnk_threedi_tools" = false ->
  rename name = name.
Proof.
  unfold contains. intros H1 H2. rewrite rename_as_chars.
  unfold rename_chars.
  rewrite (replace_from_absent old1) by exact H1.
  rewrite (replace_from_absent old2) by exact H2.
  apply String.string_of_list_ascii_of_string.
Qed.



(** The example of the docstring, through the registry of a fresh
    interpreter. *)
Example get_logger_module_example :
  exists m,
    get_logger "hhnk_research_tools.module" VNone LOGFORMAT DATEFMT
      initial_manager = (Ok "hrt.module", m) /\
    is_Some (lookup_logger m "hrt.module").
Proof.
  exists (get_logger "hhnk_research_tools.module" VNone LOGFORMAT DATEFMT
            initial_manager).2.
  split; [by vm_compute|]. vm_compute. by eexists.
Qed.

End GetLoggerClaims.

(* ===================================================================== *)
(** ** [add_file_handler] *)
(* ===================================================================== *)

Module FileSinkFacts.
Import Py Logging logger Notions ConsoleFacts.

(** Every rotating handler is a file handler: the pair of classes in the
    [isinstance] test selects the file handlers. *)
Lemma file_handler_test h :
  isinstance_FileHandler h || isinstance_RotatingFileHandler h =
  is_file_sink h.
Proof.
  unfold is_file_sink, isinstance_FileHandler, isinstance_RotatingFileHandler.
  by destruct (hclass h).
Qed.









(** A path given as a string matches no handler, so nothing is removed. *)
Lemma remove_existing_str s fuel : forall i lg,
  (forall h, h ∈ handlers lg -> is_file_sink h = true -> stream h <> None) ->
  remove_existing fuel i (PathStr s) lg = (Ok tt, lg).
Proof.
  induction fuel as [|fuel IH]; intros i lg Hopen; [done|].
  cbn [remove_existing]. run_py.
  destruct (handlers lg !! i) as [handler|] eqn:Ei; [|done].
  assert (remove_if_same_file (PathStr s) handler lg = (Ok tt, lg)) as ->.
  { unfold remove_if_same_file. rewrite file_handler_test.
    destruct (is_file_sink handler) eqn:Ef; [|done].
    destruct (stream handler) eqn:Es; [done|].
    exfalso. apply (Hopen handler); [|done..].
    by eapply list_elem_of_lookup_2. }
  by apply IH.
Qed.

Lemma Handler_setLevel_hid lvl h h' :
  Handler_setLevel lvl h = Ok h' -> hid h' = hid h.
Proof.
  unfold Handler_setLevel. destruct (_checkLevel lvl); [|done].
  by intros [= <-].
Qed.



(** The call, once the loop has passed. *)
Lemma add_file_handler_run {process : Process} filepath filemode filelevel
    fmt datefmt maxBytes backupCount rotate logfilter lg lg1 :
  remove_existing (length (handlers lg)) 0 filepath lg = (Ok tt, lg1) ->
  add_file_handler filepath filemode filelevel fmt datefmt maxBytes
    backupCount rotate logfilter lg =
  match Handler_setLevel
          (if bool_decide (filelevel = VStr "") then VInt (level lg1)
           else filelevel)
          (built_sink filepath filemode fmt datefmt maxBytes backupCount
             rotate (fresh_hid lg1)) with
  | Ok h =>
      (Ok tt,
       set_handlers
         (handlers lg1 ++
          [match logfilter with
           | Some f => Handler_addFilter f h
           | None => h
           end]) lg1)
  | Raise e => (Raise e, lg1)
  end.
Proof.
  intros Hloop. unfold add_file_handler, built_sink. run_py.
  rewrite Hloop. cbn beta iota.
  destruct (bool_decide (filelevel = VStr "")); cbn beta iota;
    (destruct (Handler_setLevel _ _) as [h|e] eqn:Eh; [|done]);
    apply Handler_setLevel_hid in Eh;
    destruct logfilter as [f|]; cbn beta iota;
    (rewrite addHandler_fresh; [done|]);
    cbn [hid Handler_addFilter]; rewrite Eh; by destruct rotate.
Qed.

(** A call with the defaults and a path given as a string: the loop
    removes nothing and the new sink is appended. *)
Lemma add_file_handler_defaults_str {process : Process} p lg :
  (forall h, h ∈ handlers lg -> is_file_sink h = true -> stream h <> None) ->
  add_file_handler_defaults (PathStr p) lg =
  (Ok tt,
   set_handlers
     (handlers lg ++ [default_sink (PathStr p) (level lg) (fresh_hid lg)]) lg).
Proof.
  intros Hopen. unfold add_file_handler_defaults.
  rewrite (add_file_handler_run _ _ _ _ _ _ _ _ _ _ _
             (remove_existing_str p _ _ _ Hopen)).
  reflexivity.
Qed.

(** *** Claims *)

(** C1 fails on the code.  [add_file_handler] compares
    [Path(handler.stream.name)] with [filepath]; for a path passed as a
    string that comparison is never true, so the sink of the first call
    stays and the second call adds another one: two writers on one file.
    The signature admits [Union[str, Path]] and the docstring promises
    the removal. *)
Theorem add_file_handler_str_path_duplicates {process : Process}
    (p : string) :
  exists lg',
    (add_file_handler_defaults (PathStr p);;
     add_file_handler_defaults (PathStr p)) new_Logger = (Ok tt, lg') /\
    length (handlers lg') = 2%nat /\
    count_writers (PosixPath.abspath getcwd p) (handlers lg') = 2%nat.
Proof.
  run_py. rewrite add_file_handler_defaults_str.
  2:{ intros h Hh. by apply elem_of_nil in Hh. }
  cbn beta iota. rewrite add_file_handler_defaults_str.
  2:{ intros h Hh _. apply list_elem_of_singleton in Hh. by subst h. }
  eexists. split; [reflexivity|]. split; [reflexivity|].
  unfold count_writers, writes_to.
  cbn -[PosixPath.abspath bool_decide].
  rewrite !bool_decide_eq_true_2 by done. reflexivity.
Qed.

(** The same at the concrete path [/tmp/x.log], next to what a [Path]
    argument gives: an absolute [Path] is recognised and replaced, a
    relative one is not.  Last, two sinks left by string paths and a
    third call with the absolute [Path]: the loop removes the first sink
    and, the list having moved under the iterator, never looks at the
    second. *)
Example add_file_handler_twice_examples :
  let twice (fp : path_arg) :=
    handlers
      ((add_file_handler_defaults (process := sample_process) fp;;
        add_file_handler_defaults (process := sample_process) fp)
         new_Logger).2 in
  count_writers "/tmp/x.log" (twice (PathStr "/tmp/x.log")) = 2%nat /\
  count_writers "/tmp/x.log"
    (twice (PathObj (PosixPath.Path "/tmp/x.log"))) = 1%nat /\
  count_writers "/home/user/x.log"
    (twice (PathObj (PosixPath.Path "x.log"))) = 2%nat /\
  count_writers "/tmp/x.log"
    (handlers
       ((add_file_handler_defaults (process := sample_process)
           (PathStr "/tmp/x.log");;
         add_file_handler_defaults (process := sample_process)
           (PathStr "/tmp/x.log");;
         add_file_handler_defaults (process := sample_process)
           (PathObj (PosixPath.Path "/tmp/x.log"))) new_Logger).2) = 2%nat.
Proof. by vm_compute. Qed.

(** C3 fails on the code: the two branches on [rotate] are swapped.  With
    [rotate] set the sink is a plain [FileHandler]; with [rotate] unset
    (the default) it is the [RotatingFileHandler] with 10 MiB per file and
    5 backups. *)
Theorem add_file_handler_rotate_flag {process : Process}
    (filepath : path_arg) :
  (exists lg h,
     add_file_handler filepath default_filemode default_filelevel LOGFORMAT
       default_file_datefmt default_maxBytes default_backupCount true None
       new_Logger = (Ok tt, lg) /\
     handlers lg = [h] /\ hclass h = FileHandler) /\
  (exists lg h,
     add_file_handler filepath default_filemode default_filelevel LOGFORMAT
       default_file_datefmt default_maxBytes default_backupCount false None
       new_Logger = (Ok tt, lg) /\
     handlers lg = [h] /\ hclass h = RotatingFileHandler /\
     maxBytes h = 10 * 1024 * 1024 /\ backupCount h = 5).
Proof.
  split; eexists _, _;
    (split;
     [ rewrite (add_file_handler_run _ _ _ _ _ _ _ _ _ new_Logger new_Logger)
         by reflexivity;
       cbn -[PosixPath.abspath]; reflexivity
     | by repeat split ]).
Qed.




End FileSinkFacts.

(* ===================================================================== *)
(** ** [get_logconfig_dict] and [set_default_logconfig] *)
(* ===================================================================== *)

Module ConfigFacts.
Import Py Logging logger Notions ConsoleFacts.

(** *** The loop over the mapping *)

Lemma apply_level_run cfg item w :
  apply_level cfg item w =
  if isinstance_list item.2 then (Ok (level_applied cfg item), w)
  else (Raise not_a_list, w).
Proof.
  unfold apply_level, level_applied. destruct item as [lvl v].
  cbn [fst snd]. by destruct (isinstance_list v).
Qed.

Lemma for_fold_apply_level items : forall cfg w,
  for_fold apply_level cfg items w =
  if all_lists items then (Ok (levels_applied cfg items), w)
  else (Raise not_a_list, w).
Proof.
  induction items as [|item items IH]; intros cfg w; [done|].
  cbn [for_fold all_lists forallb levels_applied fold_left].
  unfold bind. rewrite apply_level_run.
  destruct (isinstance_list item.2); [|done].
  cbn [andb]. apply IH.
Qed.

(** The whole call: the state of the process is never changed, and the
    outcome is read off the mapping. *)
Lemma get_logconfig_dict_run level_root level_dict log_filepath w :
  get_logconfig_dict level_root level_dict log_filepath w =
  (match dict_content w level_dict with
   | None => Raise (ReferenceError "dict")
   | Some items =>
       if all_lists items
       then Ok (finished (levels_applied (logconfig_literal level_root) items)
                  log_filepath)
       else Raise not_a_list
   end, w).
Proof.
  unfold get_logconfig_dict, dict_content, finished. run_py.
  destruct level_dict as [ref|].
  - unfold dict_items. destruct (heap w !! ref) as [items|]; [|done].
    destruct (Nat.eqb (length items) 0) eqn:E.
    + apply Nat.eqb_eq, length_zero_iff_nil in E. subst items.
      cbn. by destruct (truthy log_filepath).
    + rewrite for_fold_apply_level.
      destruct (all_lists items); [|done].
      by destruct (truthy log_filepath).
  - cbn. by destruct (truthy log_filepath).
Qed.

(** *** The tables of the descriptor *)

Lemma set_logger_levels_loggers lvl pkgs : forall cfg pkg,
  cfg_loggers (fold_left (fun c p => set_logger_level c p lvl) pkgs cfg) !! pkg
  = if bool_decide (pkg ∈ pkgs) then Some {[ "level" := lvl ]}
    else cfg_loggers cfg !! pkg.
Proof.
  induction pkgs as [|p pkgs IH]; intros cfg pkg.
  - by rewrite bool_decide_eq_false_2 by apply not_elem_of_nil.
  - cbn [fold_left]. rewrite IH.
    destruct (decide (pkg ∈ pkgs)) as [Hin|Hnin].
    + rewrite !bool_decide_eq_true_2; [done | by apply list_elem_of_further | done].
    + rewrite (bool_decide_eq_false_2 _ Hnin).
      cbn [set_logger_level cfg_loggers].
      destruct (decide (p = pkg)) as [->|Hne].
      * rewrite lookup_insert_eq.
        by rewrite bool_decide_eq_true_2 by apply list_elem_of_here.
      * rewrite lookup_insert_ne by done.
        rewrite bool_decide_eq_false_2; [done|].
        intros Hin. apply elem_of_cons in Hin as [?|?]; congruence.
Qed.

Lemma set_logger_levels_handlers lvl pkgs : forall cfg,
  cfg_handlers (fold_left (fun c p => set_logger_level c p lvl) pkgs cfg)
  = cfg_handlers cfg.
Proof.
  induction pkgs as [|p pkgs IH]; intros cfg; [done|].
  cbn [fold_left]. by rewrite IH.
Qed.

Lemma level_applied_loggers cfg item pkg :
  cfg_loggers (level_applied cfg item) !! pkg =
  if names_pkg pkg item.2 then Some {[ "level" := item.1 ]}
  else cfg_loggers cfg !! pkg.
Proof.
  unfold level_applied, names_pkg. destruct item as [lvl v]. cbn [fst snd].
  rewrite set_logger_levels_loggers. destruct v; try done.
Qed.

Lemma level_applied_handlers cfg item :
  cfg_handlers (level_applied cfg item) = cfg_handlers cfg.
Proof.
  unfold level_applied. apply set_logger_levels_handlers.
Qed.

(** The loggers table after the loop: the last item that names a
    namespace decides its entry. *)
Lemma levels_applied_loggers items : forall cfg pkg,
  cfg_loggers (levels_applied cfg items) !! pkg =
  match last_level pkg items with
  | Some lvl => Some {[ "level" := lvl ]}
  | None => cfg_loggers cfg !! pkg
  end.
Proof.
  induction items as [|[lvl v] items IH]; intros cfg pkg; [done|].
  cbn [levels_applied fold_left last_level].
  fold (levels_applied (level_applied cfg (lvl, v)) items).
  rewrite IH. destruct (last_level pkg items); [done|].
  rewrite level_applied_loggers. cbn [fst snd].
  by destruct (names_pkg pkg v).
Qed.

Lemma levels_applied_handlers items : forall cfg,
  cfg_handlers (levels_applied cfg items) = cfg_handlers cfg.
Proof.
  induction items as [|item items IH]; intros cfg; [done|].
  cbn [levels_applied fold_left].
  fold (levels_applied (level_applied cfg item) items).
  by rewrite IH, level_applied_handlers.
Qed.

Lemma finished_loggers cfg log_filepath :
  cfg_loggers (finished cfg log_filepath) = cfg_loggers cfg.
Proof. unfold finished. by destruct (truthy log_filepath). Qed.

Lemma literal_loggers level_root pkg :
  cfg_loggers (logconfig_literal level_root) !! pkg =
  if bool_decide (pkg = "") then Some (root_entry level_root) else None.
Proof.
  cbn [logconfig_literal cfg_loggers]. case_bool_decide as H.
  - subst pkg. by rewrite lookup_singleton_eq.
  - by rewrite lookup_singleton_ne.
Qed.

(** A mapping with a value that is not a list fails the test. *)
Lemma all_lists_false items :
  (exists k v, (k, v) ∈ items /\ isinstance_list v = false) ->
  all_lists items = false.
Proof.
  intros (k & v & Hin & Hv). apply not_true_is_false. intros Hall.
  unfold all_lists in Hall. rewrite forallb_forall in Hall.
  apply list_elem_of_In, Hall in Hin. cbn in Hin. congruence.
Qed.

(** *** Claims *)

(** C5.  When some value of the mapping passed as [level_dict] is not a
    list, [get_logconfig_dict] raises [TypeError] and returns no
    descriptor; the state of the process, the logging package included,
    is what it was.  [set_default_logconfig] then raises the same error
    before [dictConfig] runs, whatever [dictConfig] does. *)
Theorem level_dict_value_not_a_list (dictConfig : LogConfig -> M Manager unit)
    level_root ref log_filepath w items :
  heap w !! ref = Some items ->
  (exists k v, (k, v) ∈ items /\ isinstance_list v = false) ->
  get_logconfig_dict level_root (Some ref) log_filepath w =
    (Raise (TypeError "Level_dict should provide lists."), w) /\
  set_default_logconfig dictConfig level_root (Some ref) log_filepath w =
    (Raise (TypeError "Level_dict should provide lists."), w).
Proof.
  intros Hitems Hbad.
  assert (get_logconfig_dict level_root (Some ref) log_filepath w =
          (Raise not_a_list, w)) as Hrun.
  { rewrite get_logconfig_dict_run. cbn [dict_content]. rewrite Hitems.
    by rewrite all_lists_false. }
  split; [exact Hrun|].
  unfold set_default_logconfig. run_py. by rewrite Hrun.
Qed.

(** The hypotheses of C5 hold for the mapping [{"INFO": "app"}]. *)
Lemma level_dict_value_not_a_list_witness :
  get_logconfig_dict default_level_root (Some 3%nat) VNone sample_world =
    (Raise (TypeError "Level_dict should provide lists."), sample_world) /\
  set_default_logconfig (fun _ => mret tt) default_level_root (Some 3%nat)
    VNone sample_world =
    (Raise (TypeError "Level_dict should provide lists."), sample_world).
Proof.
  apply (level_dict_value_not_a_list (fun _ => mret tt) default_level_root
           3%nat VNone sample_world [(VStr "INFO", VStr "app")]).
  - reflexivity.
  - exists (VStr "INFO"), (VStr "app"). split; [|reflexivity].
    apply list_elem_of_here.
Defined.

(** C6.  For a mapping whose values are all lists (or no mapping) the
    call returns a descriptor.  With a log file path supplied, that is a
    [log_filepath] that counts as true such as a non-empty string, its
    handlers table has the entry [info_rotating_file_handler]: a
    [TimedRotatingFileHandler] on that path, rotating daily, keeping 7
    backups, at level [INFO].  With no path supplied ([None], or a value
    that counts as false) the key is absent from the table. *)
Theorem file_sink_entry level_root level_dict log_filepath w items :
  dict_content w level_dict = Some items ->
  all_lists items = true ->
  exists cfg,
    get_logconfig_dict level_root level_dict log_filepath w = (Ok cfg, w) /\
    (truthy log_filepath = true ->
     exists entry,
       cfg_handlers cfg !! "info_rotating_file_handler" = Some entry /\
       entry !! "class" =
         Some (VStr "logging.handlers.TimedRotatingFileHandler") /\
       entry !! "filename" = Some log_filepath /\
       entry !! "when" = Some (VStr "D") /\
       entry !! "backupCount" = Some (VInt 7) /\
       entry !! "level" = Some (VStr "INFO")) /\
    (truthy log_filepath = false ->
     cfg_handlers cfg !! "info_rotating_file_handler" = None) /\
    (forall p, p <> "" -> truthy (VStr p) = true) /\
    truthy VNone = false.
Proof.
  intros Hitems Hall. eexists. split.
  { rewrite get_logconfig_dict_run, Hitems, Hall. reflexivity. }
  unfold finished. repeat split.
  - intros ->. exists (info_rotating_file_handler log_filepath).
    cbn [set_file_handler cfg_handlers]. rewrite lookup_insert_eq.
    repeat split; reflexivity.
  - intros ->. rewrite levels_applied_handlers. reflexivity.
  - intros p Hp. cbn [truthy]. apply negb_true_iff.
    by apply String.eqb_neq.
Qed.

(** The hypotheses of C6 hold when no mapping is passed; the path is
    [/tmp/x.log]. *)
Lemma file_sink_entry_witness :
  exists cfg,
    get_logconfig_dict default_level_root None (VStr "/tmp/x.log")
      sample_world = (Ok cfg, sample_world) /\
    (truthy (VStr "/tmp/x.log") = true ->
     exists entry,
       cfg_handlers cfg !! "info_rotating_file_handler" = Some entry /\
       entry !! "class" =
         Some (VStr "logging.handlers.TimedRotatingFileHandler") /\
       entry !! "filename" = Some (VStr "/tmp/x.log") /\
       entry !! "when" = Some (VStr "D") /\
       entry !! "backupCount" = Some (VInt 7) /\
       entry !! "level" = Some (VStr "INFO")) /\
    (truthy (VStr "/tmp/x.log") = false ->
     cfg_handlers cfg !! "info_rotating_file_handler" = None) /\
    (forall p, p <> "" -> truthy (VStr p) = true) /\
    truthy VNone = false.
Proof.
  apply (file_sink_entry default_level_root None (VStr "/tmp/x.log")
           sample_world []); reflexivity.
Defined.

(** C8 as stated fails.  With [app] listed under [DEBUG] and under [INFO]
    its entry carries [INFO], not the [DEBUG] it is also listed under;
    with the empty namespace listed under [DEBUG] the root entry carries
    [DEBUG] instead of the root level [INFO] that was asked for, and has
    no handlers list left. *)
Lemma logconfig_reflects_inputs_counterexample :
  (exists cfg,
     get_logconfig_dict (VStr "INFO") (Some 1%nat) VNone sample_world =
       (Ok cfg, sample_world) /\
     names_pkg "app" (VList ["app"]) = true /\
     cfg_loggers cfg !! "app" = Some {[ "level" := VStr "INFO" ]} /\
     cfg_loggers cfg !! "app" <> Some {[ "level" := VStr "DEBUG" ]}) /\
  (exists cfg,
     get_logconfig_dict (VStr "INFO") (Some 2%nat) VNone sample_world =
       (Ok cfg, sample_world) /\
     cfg_loggers cfg !! "" = Some {[ "level" := VStr "DEBUG" ]} /\
     (cfg_loggers cfg !! "" ≫= lookup "level") <> Some (VStr "INFO")).
Proof.
  split; eexists; (split; [reflexivity|]); vm_compute; repeat split; done.
Qed.

(** C8, amended.  For a mapping whose values are all lists (or no
    mapping) the call returns a descriptor whose loggers table is exactly
    this: a namespace named in the mapping has the entry with the level
    key of the last list that names it; the root entry has the given root
    level and the two console handlers unless the empty namespace is
    itself named in the mapping; no other namespace has an entry.  Every
    sink name in the handlers list of the root entry is a key of the
    handlers table. *)
Theorem logconfig_reflects_inputs level_root level_dict log_filepath w items :
  dict_content w level_dict = Some items ->
  all_lists items = true ->
  exists cfg,
    get_logconfig_dict level_root level_dict log_filepath w = (Ok cfg, w) /\
    (forall pkg,
       cfg_loggers cfg !! pkg =
       match last_level pkg items with
       | Some lvl => Some {[ "level" := lvl ]}
       | None =>
           if bool_decide (pkg = "")
           then Some {[ "level" := level_root;
                        "handlers" := VList ["debug_console_handler"; "stderr"] ]}
           else None
       end) /\
    (forall entry names name,
       cfg_loggers cfg !! "" = Some entry ->
       entry !! "handlers" = Some (VList names) ->
       name ∈ names ->
       is_Some (cfg_handlers cfg !! name)).
Proof.
  intros Hitems Hall. eexists. split.
  { rewrite get_logconfig_dict_run, Hitems, Hall. reflexivity. }
  assert (forall pkg,
    cfg_loggers
      (finished (levels_applied (logconfig_literal level_root) items)
         log_filepath) !! pkg =
    match last_level pkg items with
    | Some lvl => Some {[ "level" := lvl ]}
    | None => if bool_decide (pkg = "") then Some (root_entry level_root)
              else None
    end) as Hloggers.
  { intros pkg. rewrite finished_loggers, levels_applied_loggers.
    by rewrite literal_loggers. }
  split; [exact Hloggers|].
  intros entry names name Hentry Hnames Hname.
  rewrite Hloggers in Hentry.
  destruct (last_level "" items) as [lvl|].
  - injection Hentry as <-. by vm_compute in Hnames.
  - cbn in Hentry. injection Hentry as <-.
    vm_compute in Hnames. injection Hnames as <-.
    assert (forall n, n ∈ ["debug_console_handler"; "stderr"] ->
            is_Some (cfg_handlers (logconfig_literal level_root) !! n)) as Hlit.
    { intros n Hn. repeat (apply elem_of_cons in Hn as [->|Hn]);
        [by eexists | by eexists | by apply elem_of_nil in Hn]. }
    unfold finished. destruct (truthy log_filepath).
    + cbn [set_file_handler cfg_handlers].
      rewrite lookup_insert_ne, levels_applied_handlers; [by apply Hlit|].
      intros <-. repeat (apply elem_of_cons in Hname as [Hname|Hname];
        [discriminate|]). by apply elem_of_nil in Hname.
    + rewrite levels_applied_handlers. by apply Hlit.
Qed.

(** The hypotheses of the amended C8 hold for [level_root="INFO"] and
    [level_dict={"DEBUG": ["app"]}]: the root entry is at [INFO], the
    entry of [app] at [DEBUG]. *)
Lemma logconfig_reflects_inputs_witness :
  exists cfg,
    get_logconfig_dict (VStr "INFO") (Some 0%nat) VNone sample_world =
      (Ok cfg, sample_world) /\
    (forall pkg,
       cfg_loggers cfg !! pkg =
       match last_level pkg [(VStr "DEBUG", VList ["app"])] with
       | Some lvl => Some {[ "level" := lvl ]}
       | None =>
           if bool_decide (pkg = "")
           then Some {[ "level" := VStr "INFO";
                        "handlers" := VList ["debug_console_handler"; "stderr"] ]}
           else None
       end) /\
    (forall entry names name,
       cfg_loggers cfg !! "" = Some entry ->
       entry !! "handlers" = Some (VList names) ->
       name ∈ names ->
       is_Some (cfg_handlers cfg !! name)).
Proof.
  apply (logconfig_reflects_inputs (VStr "INFO") (Some 0%nat) VNone
           sample_world [(VStr "DEBUG", VList ["app"])]); reflexivity.
Defined.

(** The example of the specification, read off the descriptor. *)
Example logconfig_info_debug_app :
  exists cfg,
    get_logconfig_dict (VStr "INFO") (Some 0%nat) VNone sample_world =
      (Ok cfg, sample_world) /\
    (cfg_loggers cfg !! "" ≫= lookup "level") = Some (VStr "INFO") /\
    cfg_loggers cfg !! "app" = Some {[ "level" := VStr "DEBUG" ]}.
Proof. eexists. split; [reflexivity|]. by vm_compute. Qed.

(** C10.  A call leaves the state of the process as it found it: the
    dictionaries of the callers, the mapping passed as [level_dict] among
    them, and the state of the logging package.  Two calls in a row with
    the same arguments give the same outcome, and so do two calls in
    different states of the process in which the mapping has the same
    content. *)
Theorem get_logconfig_dict_pure level_root level_dict log_filepath :
  let call := get_logconfig_dict level_root level_dict log_filepath in
  (forall w, (call w).2 = w) /\
  (forall w ref, heap (call w).2 !! ref = heap w !! ref) /\
  (forall w, (call (call w).2).1 = (call w).1) /\
  (forall w1 w2,
     dict_content w1 level_dict = dict_content w2 level_dict ->
     (call w1).1 = (call w2).1).
Proof.
  cbv zeta. repeat split.
  - intros w. by rewrite get_logconfig_dict_run.
  - intros w ref. by rewrite get_logconfig_dict_run.
  - intros w. by rewrite !get_logconfig_dict_run.
  - intros w1 w2 Hsame. rewrite !get_logconfig_dict_run. cbn [fst].
    by rewrite Hsame.
Qed.

(** The hypothesis of C10 holds for two states of the process that
    differ in the state of the logging package only. *)
Lemma get_logconfig_dict_pure_witness :
  let call := get_logconfig_dict (VStr "INFO") (Some 0%nat) VNone in
  (call sample_world).2 = sample_world /\
  (call sample_world).1 = (call other_world).1.
Proof.
  pose proof (get_logconfig_dict_pure (VStr "INFO") (Some 0%nat) VNone)
    as (H1 & _ & _ & H4).
  split; [apply H1|]. apply H4. reflexivity.
Defined.

End ConfigFacts.

(* ===================================================================== *)
(** ** More on [_add_or_update_streamhandler_format] *)
(* ===================================================================== *)

Module ConsoleMore.
Import Py Logging logger Notions MoreNotions ConsoleFacts.






End ConsoleMore.

(* ===================================================================== *)
(** ** More on [get_logger] *)
(* ===================================================================== *)

Module GetLoggerMore.
Import Py Logging logger PyStr PyStrFacts Notions MoreNotions.
Import GetLoggerFacts ConsoleFacts GetLoggerClaims.

(** *** The length of a rewritten name *)

Lemma replace_from_length old new s :
  old <> [] ->
  (length new <= length old)%nat ->
  (length (replace_from old new 0 s) <= length s)%nat.
Proof.
  intros Hne Hlen.
  induction s as [s IH] using (induction_ltof1 _ (@length ascii)).
  unfold ltof in IH.
  destruct (occurs old s) eqn:Ho.
  - destruct (replace_from_first old new s Hne Ho)
      as (u & r & -> & _ & ->).
    assert (length r < length (u ++ old ++ r))%nat as Hr.
    { rewrite !length_app. destruct old; [done|]. simpl. lia. }
    specialize (IH r Hr). rewrite !length_app. lia.
  - by rewrite replace_from_absent.
Qed.

Lemma string_length_chars s :
  String.length s = length (String.list_ascii_of_string s).
Proof. induction s as [|c s IH]; simpl; [done|]. by rewrite IH. Qed.

Lemma rename_length name :
  (String.length (rename name) <= String.length name)%nat.
Proof.
  rewrite rename_as_chars, !string_length_chars.
  rewrite String.list_ascii_of_string_of_list_ascii.
  unfold rename_chars.
  etrans; [apply replace_from_length; [done | vm_compute; lia]|].
  apply replace_from_length; [done | vm_compute; lia].
Qed.

(** X3.  The rewrite never makes a name longer, and the names it leaves
    as they are are exactly those that hold neither long name. *)
Theorem rename_shortens name :
  (String.length (rename name) <= String.length name)%nat /\
  (rename name = name <->
   contains name "hhnk_research_tools" = false /\
   contains name "hhnk_threedi_tools" = false).
Proof.
  split; [apply rename_length|]. split.
  - intros H. rewrite <- H. apply rename_clean.
  - intros [H1 H2]. by apply rename_absent.
Qed.

(** *** A name and its alias *)

Lemma rename_chars_keep pre rest :
  forallb (fun t => negb (comparable old1 t)) (suffixes pre) = true ->
  forallb (fun t => negb (comparable old2 t)) (suffixes pre) = true ->
  rename_chars (pre ++ rest) = pre ++ rename_chars rest.
Proof.
  intros H1 H2. unfold rename_chars.
  by rewrite (replace_from_keep_prefix old1), (replace_from_keep_prefix old2).
Qed.

Lemma rename_short_prefix pre rest :
  forallb (fun t => negb (comparable old1 t))
    (suffixes (String.list_ascii_of_string pre)) = true ->
  forallb (fun t => negb (comparable old2 t))
    (suffixes (String.list_ascii_of_string pre)) = true ->
  rename (pre +:+ rest) = pre +:+ rename rest.
Proof.
  intros H1 H2.
  rewrite !rename_as_chars, list_ascii_of_string_app.
  rewrite rename_chars_keep, string_of_list_ascii_app by done.
  by rewrite String.string_of_list_ascii_of_string.
Qed.

Lemma rename_prefix2 rest :
  rename ("hhnk_threedi_tools" +:+ rest) = "htt" +:+ rename rest.
Proof.
  rewrite !rename_as_chars, list_ascii_of_string_app.
  change (String.list_ascii_of_string "hhnk_threedi_tools") with old2.
  unfold rename_chars.
  rewrite (replace_from_keep_prefix old1) by (by vm_compute).
  rewrite replace_from_match by done.
  by rewrite string_of_list_ascii_app.
Qed.

(** X4.  A long package name and its alias name one logger: whatever the
    rest of the name and the other arguments, [get_logger] does the same
    under [hhnk_research_tools...] as under [hrt...], and the same under
    [hhnk_threedi_tools...] as under [htt...]. *)
Theorem get_logger_alias_same_logger rest level fmt datefmt m :
  get_logger ("hhnk_research_tools" +:+ rest) level fmt datefmt m =
    get_logger ("hrt" +:+ rest) level fmt datefmt m /\
  get_logger ("hhnk_threedi_tools" +:+ rest) level fmt datefmt m =
    get_logger ("htt" +:+ rest) level fmt datefmt m.
Proof.
  unfold get_logger.
  rewrite rename_prefix, rename_prefix2.
  rewrite (rename_short_prefix "hrt"), (rename_short_prefix "htt")
    by (by vm_compute).
  done.
Qed.

(** *** What the registry keeps *)














(** A logger that is registered is found again, and nothing moves. *)
Lemma getLogger_found name m :
  is_Some (lookup_logger m (handle_of name)) ->
  getLogger name m = (Ok (handle_of name), m).
Proof.
  unfold getLogger, handle_of.
  destruct (String.eqb name "" || String.eqb name "root") eqn:E; [done|].
  apply orb_false_elim in E as [_ E].
  unfold lookup_logger, Manager_getLogger. rewrite E.
  destruct (loggerDict m !! name) as [[lg|]|]; [done|by intros [? [=]]..].
Qed.




Lemma get_logger_default name m :
  get_logger name VNone LOGFORMAT DATEFMT m = getLogger (rename name) m.
Proof.
  unfold get_logger. run_py.
  destruct (getLogger (rename name) m) as [[h|e] s]; reflexivity.
Qed.

Lemma handle_of_again name : handle_of (handle_of name) = handle_of name.
Proof.
  unfold handle_of.
  destruct (String.eqb name "" || String.eqb name "root") eqn:E; [done|].
  by rewrite E.
Qed.

Lemma handle_of_rename_handle name :
  handle_of (rename (handle_of (rename name))) = handle_of (rename name).
Proof.
  assert (handle_of (rename name) = "root" \/
          handle_of (rename name) = rename name) as [H|H].
  { unfold handle_of.
    destruct (String.eqb (rename name) "" || String.eqb (rename name) "root");
      auto. }
  - rewrite H. by vm_compute.
  - rewrite H at 1. by rewrite rename_idempotent.
Qed.

(** *** Claims about the registry *)

(** X5.  A logger is made once.  With the level and the patterns left at
    their defaults, [get_logger] returns the handle of the rewritten
    name, under which a logger is then registered; asking again, by the
    same name or by the handle itself, returns the same handle and
    changes nothing in the registry.  The empty name and [root] give the
    root logger. *)
Theorem get_logger_singleton name m :
  let h := handle_of (rename name) in
  let first := get_logger name VNone LOGFORMAT DATEFMT m in
  first.1 = Ok h /\
  is_Some (lookup_logger first.2 h) /\
  get_logger name VNone LOGFORMAT DATEFMT first.2 = (Ok h, first.2) /\
  get_logger h VNone LOGFORMAT DATEFMT first.2 = (Ok h, first.2) /\
  handle_of (rename "") = "root" /\ handle_of (rename "root") = "root".
Proof.
  intros h first. unfold first. rewrite get_logger_default.
  destruct (getLogger_registered (rename name) m) as (m1 & Hget & Hreg).
  rewrite Hget. cbn [fst snd]. fold h in Hreg |- *.
  split; [done|]. split; [done|].
  rewrite !get_logger_default. split.
  - by apply getLogger_found.
  - split; [|by vm_compute].
    pose proof (getLogger_found (rename h) m1) as H.
    unfold h in H. rewrite handle_of_rename_handle in H.
    by apply H.
Qed.







End GetLoggerMore.

(* ===================================================================== *)
(** ** More on [add_file_handler] *)
(* ===================================================================== *)

Module FileSinkMore.
Import Py Logging logger Notions MoreNotions ConsoleFacts FileSinkFacts.

(** *** One round of the loop, by the kind of sink *)

Lemma remove_if_passed_by filepath h lg :
  passed_by filepath h = true ->
  remove_if_same_file filepath h lg = (Ok tt, lg).
Proof.
  unfold passed_by, remove_if_same_file. rewrite file_handler_test.
  destruct (is_file_sink h); [|done]. cbn [negb orb].
  destruct (stream h) as [name|]; [|done].
  by destruct (path_equals name filepath).
Qed.

Lemma remove_if_names_file filepath h lg :
  names_file filepath h = true ->
  remove_if_same_file filepath h lg =
  (Ok tt,
   if handler_in h (handlers lg)
   then set_handlers (list_remove h (handlers lg)) lg else lg).
Proof.
  unfold names_file, remove_if_same_file. rewrite file_handler_test.
  destruct (is_file_sink h); [|done]. cbn [andb].
  destruct (stream h) as [name|]; [|done].
  intros ->. reflexivity.
Qed.

Lemma remove_if_closed filepath h lg :
  is_file_sink h = true -> stream h = None ->
  remove_if_same_file filepath h lg =
  (Raise (AttributeError "'NoneType' object has no attribute 'name'"), lg).
Proof.
  intros Hf Hs. unfold remove_if_same_file.
  by rewrite file_handler_test, Hf, Hs.
Qed.


Lemma passed_by_not_named filepath h :
  passed_by filepath h = true -> names_file filepath h = false.
Proof.
  unfold passed_by, names_file.
  destruct (is_file_sink h); [|done]. cbn [negb orb andb].
  destruct (stream h) as [name|]; [|done].
  by destruct (path_equals name filepath).
Qed.

(** *** The loop on lists of a known shape *)

Lemma remove_existing_pass filepath fuel : forall i lg,
  (forall h, h ∈ handlers lg -> passed_by filepath h = true) ->
  remove_existing fuel i filepath lg = (Ok tt, lg).
Proof.
  induction fuel as [|fuel IH]; intros i lg Hpass; [done|].
  cbn [remove_existing]. run_py.
  destruct (handlers lg !! i) as [h|] eqn:Ei; [|done].
  rewrite remove_if_passed_by; [by apply IH|].
  apply Hpass. by eapply list_elem_of_lookup_2.
Qed.

Lemma handler_in_spec h hs :
  handler_in h hs = true <-> hid h ∈ map hid hs.
Proof.
  unfold handler_in. rewrite existsb_exists. split.
  - intros (x & Hx & Heq). apply Nat.eqb_eq in Heq. rewrite <- Heq.
    apply list_elem_of_In, in_map, Hx.
  - intros Hin. apply list_elem_of_In, in_map_iff in Hin as (x & Heq & Hx).
    exists x. split; [done|]. by apply Nat.eqb_eq.
Qed.

Lemma list_remove_last h hs :
  hid h ∉ map hid hs -> list_remove h (hs ++ [h]) = hs.
Proof.
  induction hs as [|x hs IH]; intros Hnin; simpl.
  - by rewrite Nat.eqb_refl.
  - destruct (Nat.eqb (hid x) (hid h)) eqn:E.
    + exfalso. apply Hnin. apply Nat.eqb_eq in E. rewrite <- E.
      apply list_elem_of_here.
    + rewrite IH; [done|]. intros Hin. apply Hnin.
      by apply list_elem_of_further.
Qed.

(** The sink looked for is the last one: the loop removes it. *)
Lemma remove_existing_last filepath hs h lg :
  handlers lg = hs ++ [h] ->
  (forall x, x ∈ hs -> passed_by filepath x = true) ->
  names_file filepath h = true ->
  hid h ∉ map hid hs ->
  forall fuel i,
    (i <= length hs)%nat -> (length hs < i + fuel)%nat ->
    remove_existing fuel i filepath lg = (Ok tt, set_handlers hs lg).
Proof.
  intros Hhs Hpass Hnamed Hfresh.
  induction fuel as [|fuel IH]; intros i Hi Hfuel; [lia|].
  cbn [remove_existing]. run_py. rewrite Hhs.
  destruct (decide (i = length hs)) as [->|Hlt].
  - rewrite lookup_app_r, Nat.sub_diag by lia. cbn [lookup list_lookup].
    rewrite remove_if_names_file by done. rewrite Hhs.
    assert (handler_in h (hs ++ [h]) = true) as ->.
    { apply handler_in_spec. rewrite map_app. apply elem_of_app. right.
      apply list_elem_of_here. }
    rewrite list_remove_last by done.
    destruct fuel as [|fuel]; [done|].
    cbn [remove_existing]. run_py. cbn [handlers set_handlers].
    by rewrite lookup_ge_None_2 by lia.
  - rewrite lookup_app_l by lia.
    destruct (hs !! i) as [x|] eqn:Ex.
    + rewrite remove_if_passed_by
        by (apply Hpass; by eapply list_elem_of_lookup_2).
      apply IH; lia.
    + apply lookup_ge_None_1 in Ex. lia.
Qed.

(** A file handler without a stream, after sinks that are passed by:
    the loop stops there and has changed nothing. *)
Lemma remove_existing_closed filepath pre h post lg :
  handlers lg = pre ++ h :: post ->
  (forall x, x ∈ pre -> passed_by filepath x = true) ->
  is_file_sink h = true -> stream h = None ->
  forall fuel i,
    (i <= length pre)%nat -> (length pre < i + fuel)%nat ->
    remove_existing fuel i filepath lg =
    (Raise (AttributeError "'NoneType' object has no attribute 'name'"), lg).
Proof.
  intros Hhs Hpass Hfile Hclosed.
  induction fuel as [|fuel IH]; intros i Hi Hfuel; [lia|].
  cbn [remove_existing]. run_py. rewrite Hhs.
  destruct (decide (i = length pre)) as [->|Hlt].
  - rewrite lookup_app_r, Nat.sub_diag by lia. cbn [lookup list_lookup].
    by rewrite remove_if_closed.
  - rewrite lookup_app_l by lia.
    destruct (pre !! i) as [x|] eqn:Ex.
    + rewrite remove_if_passed_by
        by (apply Hpass; by eapply list_elem_of_lookup_2).
      apply IH; lia.
    + apply lookup_ge_None_1 in Ex. lia.
Qed.

(** *** The loop on any list of distinct objects *)











(** *** Claims *)




Lemma add_file_handler_defaults_run {process : Process} filepath lg lg1 :
  remove_existing (length (handlers lg)) 0 filepath lg = (Ok tt, lg1) ->
  add_file_handler_defaults filepath lg =
  (Ok tt,
   set_handlers
     (handlers lg1 ++ [default_sink filepath (level lg1) (fresh_hid lg1)])
     lg1).
Proof.
  intros Hloop. unfold add_file_handler_defaults.
  by rewrite (add_file_handler_run _ _ _ _ _ _ _ _ _ _ _ Hloop).
Qed.

Lemma fresh_hid_not_in lg : fresh_hid lg ∉ map hid (handlers lg).
Proof.
  intros Hin. apply foldr_max_ge in Hin. unfold fresh_hid in Hin. lia.
Qed.

Lemma count_writers_app name l1 l2 :
  count_writers name (l1 ++ l2) =
  (count_writers name l1 + count_writers name l2)%nat.
Proof. unfold count_writers. by rewrite List.filter_app, length_app. Qed.

Lemma count_writers_none name hs :
  (forall h, h ∈ hs -> writes_to name h = false) ->
  count_writers name hs = 0%nat.
Proof.
  unfold count_writers. induction hs as [|x hs IH]; intros H; [done|].
  simpl. rewrite (H x) by apply list_elem_of_here.
  apply IH. intros y Hy. apply H. by apply list_elem_of_further.
Qed.

(** X11.  For a [Path] that is absolute and normalised, so that the file
    name a sink opens reads back as that path, and a logger that has no
    sink on that file yet, the second of two calls with the defaults
    replaces the sink of the first: the logger is in the state the first
    call left, with its earlier sinks and exactly one sink on the file. *)
Theorem add_file_handler_path_deduplicates {process : Process}
    (p : PosixPath.PurePath) lg :
  PosixPath.Path (PosixPath.abspath getcwd (PosixPath.str p)) = p ->
  (forall h, h ∈ handlers lg -> passed_by (PathObj p) h = true) ->
  let once := add_file_handler_defaults (PathObj p) in
  (once;; once) lg = once lg /\
  exists lg',
    once lg = (Ok tt, lg') /\
    handlers lg' =
      handlers lg ++ [default_sink (PathObj p) (level lg) (fresh_hid lg)] /\
    count_writers (PosixPath.abspath getcwd (PosixPath.str p)) (handlers lg')
      = 1%nat.
Proof.
  intros Hpath Hpass once. unfold once.
  set (new := default_sink (PathObj p) (level lg) (fresh_hid lg)).
  assert (add_file_handler_defaults (PathObj p) lg =
          (Ok tt, set_handlers (handlers lg ++ [new]) lg)) as Hfirst.
  { apply add_file_handler_defaults_run. by apply remove_existing_pass. }
  assert (names_file (PathObj p) new = true) as Hnew.
  { unfold names_file, new. cbn. by apply bool_decide_eq_true_2. }
  split.
  - run_py. rewrite Hfirst. cbn beta iota.
    rewrite (add_file_handler_defaults_run _ _ (set_handlers (handlers lg) lg)).
    + reflexivity.
    + cbn [handlers set_handlers].
      rewrite (remove_existing_last (PathObj p) (handlers lg) new); try done.
      * apply fresh_hid_not_in.
      * lia.
      * rewrite length_app. simpl. lia.
  - eexists. split; [exact Hfirst|]. split; [reflexivity|].
    cbn [handlers set_handlers].
    rewrite count_writers_app, count_writers_none.
    + unfold count_writers, writes_to, new. cbn -[PosixPath.abspath bool_decide].
      by rewrite bool_decide_eq_true_2.
    + intros h Hh. specialize (Hpass h Hh).
      unfold passed_by in Hpass. unfold writes_to.
      destruct (is_file_sink h); [|done]. cbn [negb orb andb] in Hpass |- *.
      destruct (stream h) as [name|]; [|done].
      apply bool_decide_eq_false_2. intros [= ->].
      cbn [path_equals] in Hpass.
      by rewrite bool_decide_eq_true_2 in Hpass.
Qed.

(** The path [/tmp/x.log] and a logger with one console sink: the
    hypotheses of X11. *)
Lemma add_file_handler_path_deduplicates_witness :
  let once :=
    add_file_handler_defaults (process := sample_process)
      (PathObj (PosixPath.Path "/tmp/x.log")) in
  (once;; once) console_logger = once console_logger.
Proof.
  apply (add_file_handler_path_deduplicates (process := sample_process)
           (PosixPath.Path "/tmp/x.log") console_logger).
  - reflexivity.
  - intros h Hh. apply list_elem_of_singleton in Hh. subst h. reflexivity.
Defined.



(** X13.  A file handler without an open stream stops the call: when it
    is the first sink that the loop does not pass by, the call raises
    [AttributeError] and leaves the logger exactly as it was, with no
    sink removed and none added. *)
Theorem add_file_handler_closed_stream {process : Process} filepath
    filemode filelevel fmt datefmt maxBytes backupCount rotate logfilter
    lg pre h post :
  handlers lg = pre ++ h :: post ->
  (forall x, x ∈ pre -> passed_by filepath x = true) ->
  is_file_sink h = true ->
  stream h = None ->
  add_file_handler filepath filemode filelevel fmt datefmt maxBytes
    backupCount rotate logfilter lg =
  (Raise (AttributeError "'NoneType' object has no attribute 'name'"), lg).
Proof.
  intros Hhs Hpass Hfile Hclosed.
  unfold add_file_handler. run_py.
  rewrite (remove_existing_closed filepath pre h post); try done; [lia|].
  rewrite Hhs, length_app. simpl. lia.
Qed.

(** A logger with a console sink, then a closed file handler, then a
    sink on [/tmp/x.log]: the hypotheses of X13. *)
Lemma add_file_handler_closed_stream_witness :
  add_file_handler (process := sample_process) (PathStr "/tmp/x.log") "a"
    (VStr "") LOGFORMAT DATEFMT default_maxBytes default_backupCount false
    None closed_logger =
  (Raise (AttributeError "'NoneType' object has no attribute 'name'"),
   closed_logger).
Proof.
  apply (add_file_handler_closed_stream (process := sample_process)
           (PathStr "/tmp/x.log") "a" (VStr "") LOGFORMAT DATEFMT
           default_maxBytes default_backupCount false None closed_logger
           [new_StreamHandler 0 "<stderr>"] closed_sink [tmp_sink]).
  - reflexivity.
  - intros x Hx. apply list_elem_of_singleton in Hx. subst x. reflexivity.
  - reflexivity.
  - reflexivity.
Defined.



End FileSinkMore.

(* ===================================================================== *)
(** ** More on [get_logconfig_dict] and [set_default_logconfig] *)
(* ===================================================================== *)

Module ConfigMore.
Import Py Logging logger Notions MoreNotions ConsoleFacts ConfigFacts.

(** *** The tables that the mapping does not reach *)

Lemma set_logger_levels_rest lvl pkgs : forall cfg,
  let cfg' := fold_left (fun c p => set_logger_level c p lvl) pkgs cfg in
  cfg_version cfg' = cfg_version cfg /\
  cfg_disable_existing_loggers cfg' = cfg_disable_existing_loggers cfg /\
  cfg_formatters cfg' = cfg_formatters cfg.
Proof.
  induction pkgs as [|p pkgs IH]; intros cfg; [done|].
  cbn [fold_left]. cbv zeta.
  destruct (IH (set_logger_level cfg p lvl)) as (-> & -> & ->). done.
Qed.

Lemma levels_applied_rest items : forall cfg,
  cfg_version (levels_applied cfg items) = cfg_version cfg /\
  cfg_disable_existing_loggers (levels_applied cfg items) =
    cfg_disable_existing_loggers cfg /\
  cfg_formatters (levels_applied cfg items) = cfg_formatters cfg.
Proof.
  induction items as [|item items IH]; intros cfg; [done|].
  cbn [levels_applied fold_left].
  fold (levels_applied (level_applied cfg item) items).
  destruct (IH (level_applied cfg item)) as (-> & -> & ->).
  apply set_logger_levels_rest.
Qed.

Lemma LogConfig_eq c1 c2 :
  cfg_version c1 = cfg_version c2 ->
  cfg_disable_existing_loggers c1 = cfg_disable_existing_loggers c2 ->
  cfg_loggers c1 = cfg_loggers c2 ->
  cfg_handlers c1 = cfg_handlers c2 ->
  cfg_formatters c1 = cfg_formatters c2 ->
  c1 = c2.
Proof. destruct c1, c2. simpl. by intros -> -> -> -> ->. Qed.

(** The handlers table of a descriptor: the three of the literal, and
    the file sink for a path that counts as true. *)
Lemma finished_handlers level_root items log_filepath hname entry :
  cfg_handlers
    (finished (levels_applied (logconfig_literal level_root) items)
       log_filepath) !! hname = Some entry ->
  (hname = "null" /\ entry = {[ "class" := VStr "logging.NullHandler" ]}) \/
  (hname = "debug_console_handler" /\
   entry = {[ "level" := VStr "NOTSET";
              "formatter" := VStr "time_level_name";
              "class" := VStr "logging.StreamHandler";
              "stream" := VStr "ext://sys.stdout" ]}) \/
  (hname = "stderr" /\
   entry = {[ "level" := VStr "ERROR";
              "formatter" := VStr "time_level_name";
              "class" := VStr "logging.StreamHandler";
              "stream" := VStr "ext://sys.stderr" ]}) \/
  (hname = "info_rotating_file_handler" /\ truthy log_filepath = true /\
   entry = info_rotating_file_handler log_filepath).
Proof.
  assert (forall e,
    cfg_handlers (logconfig_literal level_root) !! hname = Some e ->
    (hname = "null" /\ e = {[ "class" := VStr "logging.NullHandler" ]}) \/
    (hname = "debug_console_handler" /\
     e = {[ "level" := VStr "NOTSET";
            "formatter" := VStr "time_level_name";
            "class" := VStr "logging.StreamHandler";
            "stream" := VStr "ext://sys.stdout" ]}) \/
    (hname = "stderr" /\
     e = {[ "level" := VStr "ERROR";
            "formatter" := VStr "time_level_name";
            "class" := VStr "logging.StreamHandler";
            "stream" := VStr "ext://sys.stderr" ]})) as Hlit.
  { intros e He. cbn [logconfig_literal cfg_handlers] in He.
    apply lookup_insert_Some in He as [[<- <-]|[_ He]]; [by left|].
    apply lookup_insert_Some in He as [[<- <-]|[_ He]]; [by right; left|].
    apply lookup_singleton_Some in He as [<- <-]. by right; right. }
  unfold finished. destruct (truthy log_filepath) eqn:Et.
  - cbn [set_file_handler cfg_handlers]. intros He.
    apply lookup_insert_Some in He as [[<- <-]|[_ He]].
    + by right; right; right.
    + rewrite levels_applied_handlers in He.
      destruct (Hlit _ He) as [?|[?|?]]; auto.
  - rewrite levels_applied_handlers. intros He.
    destruct (Hlit _ He) as [?|[?|?]]; auto.
Qed.

Lemma finished_formatters level_root items log_filepath :
  cfg_formatters
    (finished (levels_applied (logconfig_literal level_root) items)
       log_filepath) =
  {[ "time_level_name" :=
       {[ "format" := VStr LOGFORMAT; "datefmt" := VStr DATEFMT ]} ]}.
Proof.
  unfold finished. destruct (truthy log_filepath);
    cbn [set_file_handler cfg_formatters];
    by destruct (levels_applied_rest items (logconfig_literal level_root))
      as (_ & _ & ->).
Qed.

(** *** Claims *)

(** X15.  For a mapping whose values are all lists (or no mapping) the
    descriptor is closed under its references from sinks to formatters:
    every entry of the handlers table has a class, and the formatter it
    names, if it names one, is a key of the formatters table.  This holds
    for the file sink of a given path as for the three sinks that are
    always there. *)
Theorem logconfig_formatters_exist level_root level_dict log_filepath w items :
  dict_content w level_dict = Some items ->
  all_lists items = true ->
  exists cfg,
    get_logconfig_dict level_root level_dict log_filepath w = (Ok cfg, w) /\
    (forall hname, hname ∈ ["null"; "debug_console_handler"; "stderr"] ->
                   is_Some (cfg_handlers cfg !! hname)) /\
    (forall hname entry,
       cfg_handlers cfg !! hname = Some entry ->
       is_Some (entry !! "class") /\
       (forall fname,
          entry !! "formatter" = Some fname ->
          exists name, fname = VStr name /\
                       is_Some (cfg_formatters cfg !! name))).
Proof.
  intros Hitems Hall. eexists. split.
  { rewrite get_logconfig_dict_run, Hitems, Hall. reflexivity. }
  split.
  { intros hname Hin. unfold finished.
    assert (is_Some (cfg_handlers (logconfig_literal level_root) !! hname))
      as Hlit.
    { repeat (apply elem_of_cons in Hin as [->|Hin]);
        [by eexists.. | by apply elem_of_nil in Hin]. }
    destruct (truthy log_filepath).
    - cbn [set_file_handler cfg_handlers].
      rewrite lookup_insert_ne, levels_applied_handlers; [done|].
      intros <-. repeat (apply elem_of_cons in Hin as [Hin|Hin];
        [discriminate|]). by apply elem_of_nil in Hin.
    - by rewrite levels_applied_handlers. }
  intros hname entry Hentry. rewrite finished_formatters.
  apply finished_handlers in Hentry
    as [[_ ->]|[[_ ->]|[[_ ->]|(_ & _ & ->)]]].
  - split; [by eexists|]. intros fname Hf. by vm_compute in Hf.
  - split; [by eexists|]. intros fname Hf. vm_compute in Hf.
    injection Hf as <-. exists "time_level_name". split; [done | by eexists].
  - split; [by eexists|]. intros fname Hf. vm_compute in Hf.
    injection Hf as <-. exists "time_level_name". split; [done | by eexists].
  - split; [by eexists|]. intros fname Hf.
    assert (info_rotating_file_handler log_filepath !! "formatter" =
            Some (VStr "time_level_name")) as Hfmt by reflexivity.
    rewrite Hfmt in Hf. injection Hf as <-.
    exists "time_level_name". split; [done | by eexists].
Qed.

(** No mapping and the path [/tmp/x.log]: the hypotheses of X15. *)
Lemma logconfig_formatters_exist_witness :
  exists cfg,
    get_logconfig_dict default_level_root None (VStr "/tmp/x.log")
      sample_world = (Ok cfg, sample_world) /\
    (forall hname, hname ∈ ["null"; "debug_console_handler"; "stderr"] ->
                   is_Some (cfg_handlers cfg !! hname)) /\
    (forall hname entry,
       cfg_handlers cfg !! hname = Some entry ->
       is_Some (entry !! "class") /\
       (forall fname,
          entry !! "formatter" = Some fname ->
          exists name, fname = VStr name /\
                       is_Some (cfg_formatters cfg !! name))).
Proof.
  apply (logconfig_formatters_exist default_level_root None
           (VStr "/tmp/x.log") sample_world []); reflexivity.
Defined.

(** X16.  The file sink is defined and never attached.  In the descriptor
    of a mapping whose values are all lists (or of no mapping), with or
    without a log file path, the only entry of the loggers table that has
    a handlers list is the root entry, and that list is the two console
    sinks: no logger names [info_rotating_file_handler]. *)
Theorem logconfig_file_sink_unattached level_root level_dict log_filepath
    w items :
  dict_content w level_dict = Some items ->
  all_lists items = true ->
  exists cfg,
    get_logconfig_dict level_root level_dict log_filepath w = (Ok cfg, w) /\
    (forall pkg entry names,
       cfg_loggers cfg !! pkg = Some entry ->
       entry !! "handlers" = Some names ->
       pkg = "" /\
       names = VList ["debug_console_handler"; "stderr"] /\
       "info_rotating_file_handler" ∉ ["debug_console_handler"; "stderr"]).
Proof.
  intros Hitems Hall. eexists. split.
  { rewrite get_logconfig_dict_run, Hitems, Hall. reflexivity. }
  intros pkg entry names Hentry Hnames.
  rewrite finished_loggers, levels_applied_loggers, literal_loggers in Hentry.
  destruct (last_level pkg items) as [lvl|].
  - injection Hentry as <-.
    assert (({[ "level" := lvl ]} : gmap string value) !! "handlers" = None)
      as Hnone by reflexivity.
    congruence.
  - case_bool_decide as Hpkg; [|done]. injection Hentry as <-.
    assert (root_entry level_root !! "handlers" =
            Some (VList ["debug_console_handler"; "stderr"])) as Hroot
      by reflexivity.
    rewrite Hroot in Hnames. injection Hnames as <-.
    split; [done|]. split; [done|].
    intros Hin. repeat (apply elem_of_cons in Hin as [Hin|Hin];
      [discriminate|]). by apply elem_of_nil in Hin.
Qed.

(** The mapping [{"DEBUG": ["app"]}] and the path [/tmp/x.log]: the
    hypotheses of X16. *)
Lemma logconfig_file_sink_unattached_witness :
  exists cfg,
    get_logconfig_dict default_level_root (Some 0%nat) (VStr "/tmp/x.log")
      sample_world = (Ok cfg, sample_world) /\
    (forall pkg entry names,
       cfg_loggers cfg !! pkg = Some entry ->
       entry !! "handlers" = Some names ->
       pkg = "" /\
       names = VList ["debug_console_handler"; "stderr"] /\
       "info_rotating_file_handler" ∉ ["debug_console_handler"; "stderr"]).
Proof.
  apply (logconfig_file_sink_unattached default_level_root (Some 0%nat)
           (VStr "/tmp/x.log") sample_world [(VStr "DEBUG", VList ["app"])]);
    reflexivity.
Defined.

(** *** The order of the mapping *)

Lemma names_pkg_spec pkg v :
  names_pkg pkg v = true <-> pkg ∈ list_items v.
Proof.
  unfold names_pkg, list_items. destruct v; try (by split; [|intros ?%elem_of_nil]).
  apply bool_decide_eq_true.
Qed.

Lemma named_pkgs_elem pkg lvl v items :
  (lvl, v) ∈ items -> pkg ∈ list_items v -> pkg ∈ named_pkgs items.
Proof.
  unfold named_pkgs. induction items as [|item items IH]; intros Hin Hpkg.
  - by apply elem_of_nil in Hin.
  - simpl. apply elem_of_app.
    apply elem_of_cons in Hin as [<-|Hin]; [by left | right; by apply IH].
Qed.

Lemma last_level_named pkg items lvl :
  last_level pkg items = Some lvl ->
  exists v, (lvl, v) ∈ items /\ pkg ∈ list_items v.
Proof.
  induction items as [|[l v] items IH]; [done|]. cbn [last_level].
  destruct (last_level pkg items) as [l'|].
  - intros [= <-]. destruct (IH eq_refl) as (v' & Hin & Hpkg).
    exists v'. split; [by apply list_elem_of_further | done].
  - destruct (names_pkg pkg v) eqn:E; [|done]. intros [= <-].
    exists v. split; [apply list_elem_of_here | by apply names_pkg_spec].
Qed.

Lemma last_level_some pkg items lvl v :
  (lvl, v) ∈ items -> pkg ∈ list_items v -> is_Some (last_level pkg items).
Proof.
  induction items as [|[l v'] items IH]; intros Hin Hpkg.
  - by apply elem_of_nil in Hin.
  - cbn [last_level].
    destruct (last_level pkg items) as [l'|] eqn:E; [by eexists|].
    apply elem_of_cons in Hin as [[= <- <-]|Hin].
    + apply names_pkg_spec in Hpkg. rewrite Hpkg. by eexists.
    + destruct (IH Hin Hpkg) as [? [=]].
Qed.

(** When no namespace is named twice, the item that names it is one. *)
Lemma named_once pkg items l1 v1 l2 v2 :
  NoDup (named_pkgs items) ->
  (l1, v1) ∈ items -> pkg ∈ list_items v1 ->
  (l2, v2) ∈ items -> pkg ∈ list_items v2 ->
  l1 = l2.
Proof.
  unfold named_pkgs.
  induction items as [|[l v] items IH]; intros Hnd H1 P1 H2 P2.
  - by apply elem_of_nil in H1.
  - simpl in Hnd. apply NoDup_app in Hnd as (_ & Hdisj & Hnd).
    apply elem_of_cons in H1 as [[= -> ->]|H1];
      apply elem_of_cons in H2 as [[= -> ->]|H2].
    + done.
    + exfalso. apply (Hdisj pkg P1). by eapply named_pkgs_elem.
    + exfalso. apply (Hdisj pkg P2). by eapply named_pkgs_elem.
    + by apply IH.
Qed.

Lemma last_level_permutation pkg items items' :
  items ≡ₚ items' ->
  NoDup (named_pkgs items) ->
  last_level pkg items = last_level pkg items'.
Proof.
  intros Hperm Hnd.
  destruct (last_level pkg items) as [l|] eqn:E;
    destruct (last_level pkg items') as [l'|] eqn:E'; try done.
  - apply last_level_named in E as (v & Hin & Hpkg).
    apply last_level_named in E' as (v' & Hin' & Hpkg').
    rewrite <- Hperm in Hin'. f_equal. by eapply named_once.
  - apply last_level_named in E as (v & Hin & Hpkg).
    rewrite Hperm in Hin.
    destruct (last_level_some pkg items' l v Hin Hpkg) as [? ?]. congruence.
  - apply last_level_named in E' as (v' & Hin' & Hpkg').
    rewrite <- Hperm in Hin'.
    destruct (last_level_some pkg items l' v' Hin' Hpkg') as [? ?]. congruence.
Qed.

Lemma all_lists_permutation items items' :
  items ≡ₚ items' -> all_lists items = true -> all_lists items' = true.
Proof.
  unfold all_lists. rewrite !forallb_forall. intros Hperm Hall x Hx.
  apply Hall. apply list_elem_of_In. rewrite Hperm. by apply list_elem_of_In.
Qed.

(** X17.  When every value of the mapping is a list and no namespace is
    named twice, the order of the mapping does not matter: a mapping
    with the same items in any other order gives the same descriptor. *)
Theorem logconfig_order_irrelevant level_root log_filepath w ref items
    w' ref' items' :
  heap w !! ref = Some items ->
  heap w' !! ref' = Some items' ->
  items ≡ₚ items' ->
  all_lists items = true ->
  NoDup (named_pkgs items) ->
  exists cfg,
    get_logconfig_dict level_root (Some ref) log_filepath w = (Ok cfg, w) /\
    get_logconfig_dict level_root (Some ref') log_filepath w' = (Ok cfg, w').
Proof.
  intros Hitems Hitems' Hperm Hall Hnd.
  rewrite !get_logconfig_dict_run. cbn [dict_content].
  rewrite Hitems, Hitems', Hall, (all_lists_permutation _ _ Hperm Hall).
  eexists. split; [reflexivity|]. do 2 f_equal. f_equal.
  destruct (levels_applied_rest items (logconfig_literal level_root))
    as (V & D & F).
  destruct (levels_applied_rest items' (logconfig_literal level_root))
    as (V' & D' & F').
  apply LogConfig_eq; try congruence.
  - apply map_eq. intros pkg. rewrite !levels_applied_loggers.
    by rewrite (last_level_permutation pkg items items').
  - by rewrite !levels_applied_handlers.
Qed.

(** Two mappings with the same two items in the two orders: the
    hypotheses of X17. *)
Lemma logconfig_order_irrelevant_witness :
  exists cfg,
    get_logconfig_dict (VStr "INFO") (Some 0%nat) VNone permuted_world =
      (Ok cfg, permuted_world) /\
    get_logconfig_dict (VStr "INFO") (Some 1%nat) VNone permuted_world =
      (Ok cfg, permuted_world).
Proof.
  apply (logconfig_order_irrelevant (VStr "INFO") VNone permuted_world 0%nat
           [(VStr "DEBUG", VList ["a"; "b"]); (VStr "INFO", VList ["c"])]
           permuted_world 1%nat
           [(VStr "INFO", VList ["c"]); (VStr "DEBUG", VList ["a"; "b"])]).
  - reflexivity.
  - reflexivity.
  - apply Permutation_swap.
  - reflexivity.
  - apply (bool_decide_unpack _). by vm_compute.
Defined.



End ConfigMore.

(* ===================================================================== *)
(** ** A file sink and a console pattern on one logger *)
(* ===================================================================== *)

Module SinkOrder.
Import Py Logging logger Notions MoreNotions ConsoleFacts FileSinkFacts.
Import FileSinkMore.




End SinkOrder.
